(** * The email classification pipeline of email_classifier_template.py

    A shallow embedding of [EmailProcessor] and [EmailAutomationSystem]:
    Python dictionaries are finite maps, [None] is [option]'s [None],
    exceptions and the side effects on the outside world (logger lines,
    requests to the completion endpoint, calls of the service functions)
    are threaded through a small state-and-error monad. *)

From Stdlib Require Import Ascii String.
From stdpp Require Import gmap strings list fin_maps.

Open Scope string_scope.
Open Scope list_scope.

(** ** Python strings

    A [string] stands for a Python [str] whose code points are below 256,
    one [ascii] per code point. *)

Module PyStr.

Definition code (c : ascii) : nat := nat_of_ascii c.

Definition between (lo hi n : nat) : bool := Nat.leb lo n && Nat.leb n hi.

(** The code points [str.strip()] removes: those [str.isspace] accepts. *)
Definition is_space (c : ascii) : bool :=
  between 9 13 (code c) || between 28 32 (code c)
  || Nat.eqb (code c) 133 || Nat.eqb (code c) 160.

Fixpoint lstrip (s : string) : string :=
  match s with
  | String c s' => if is_space c then lstrip s' else s
  | EmptyString => EmptyString
  end.

Fixpoint rstrip (s : string) : string :=
  match s with
  | EmptyString => EmptyString
  | String c s' =>
      match rstrip s' with
      | EmptyString => if is_space c then EmptyString else String c EmptyString
      | r => String c r
      end
  end.

(** [s.strip()] *)
Definition strip (s : string) : string := lstrip (rstrip s).

Definition is_upper (c : ascii) : bool :=
  between 65 90 (code c)
  || (between 192 222 (code c) && negb (Nat.eqb (code c) 215)).

Definition lower_char (c : ascii) : ascii :=
  if is_upper c then ascii_of_nat (code c + 32) else c.

(** [s.lower()] *)
Fixpoint lower (s : string) : string :=
  match s with
  | EmptyString => EmptyString
  | String c s' => String (lower_char c) (lower s')
  end.

Definition quote : ascii := "'"%char.
Definition dquote : ascii := ascii_of_nat 34.
Definition backslash : ascii := "\"%char.

Fixpoint contains (c : ascii) (s : string) : bool :=
  match s with
  | EmptyString => false
  | String d s' => Ascii.eqb c d || contains c s'
  end.

Definition hex_digit (n : nat) : ascii :=
  if Nat.ltb n 10 then ascii_of_nat (48 + n) else ascii_of_nat (87 + n).

Definition printable (c : ascii) : bool :=
  negb (Nat.ltb (code c) 32 || between 127 160 (code c) || Nat.eqb (code c) 173).

Definition repr_char (q c : ascii) : string :=
  if Ascii.eqb c q || Ascii.eqb c backslash then String backslash (String c "")
  else if Nat.eqb (code c) 9 then "\t"
  else if Nat.eqb (code c) 10 then "\n"
  else if Nat.eqb (code c) 13 then "\r"
  else if printable c then String c ""
  else "\x" +:+ String (hex_digit (code c / 16)) (String (hex_digit (code c mod 16)) "").

Fixpoint repr_body (q : ascii) (s : string) : string :=
  match s with
  | EmptyString => EmptyString
  | String c s' => repr_char q c +:+ repr_body q s'
  end.

(** [repr(s)] for a [str]: single quotes unless the text has a single
    quote and no double quote. *)
Definition repr (s : string) : string :=
  let q := if contains quote s && negb (contains dquote s) then dquote else quote in
  String q (repr_body q s +:+ String q "").

(** [str(v)] and [repr(v)] for a value that is a [str] or [None]. *)
Definition str_opt (v : option string) : string :=
  match v with Some s => s | None => "None" end.

Definition repr_opt (v : option string) : string :=
  match v with Some s => repr s | None => "None" end.

Definition is_digit (c : ascii) : bool := between 48 57 (code c).

Fixpoint all_digits (s : string) : bool :=
  match s with
  | EmptyString => true
  | String c s' => is_digit c && all_digits s'
  end.

End PyStr.

(** ** Exceptions, the outside world, and the monad of effects *)

(** The subclasses of [Exception] the program can meet.  [KeyError] keeps
    the key that was looked up ([None] is the Python value [None]). *)
Inductive Exn : Type :=
| KeyError (key : option string)
| AttributeError (msg : string)
| TypeError (msg : string)
| IndexError (msg : string)
| ValueError (msg : string)
| OtherError (cls msg : string).

(** [str(e)] *)
Definition exn_str (e : Exn) : string :=
  match e with
  | KeyError key => PyStr.repr_opt key
  | AttributeError msg | TypeError msg | IndexError msg | ValueError msg => msg
  | OtherError _ msg => msg
  end.

(** The mock service functions at the end of the source file. *)
Inductive Call : Type :=
| send_complaint_response (email_id : string) (response : option string)
| send_standard_response (email_id : string) (response : option string)
| create_urgent_ticket (email_id category context : string)
| create_support_ticket (email_id context : string)
| log_customer_feedback (email_id feedback : string).

(** What the program does to the outside world, oldest event first. *)
Inductive Event : Type :=
| LogError (msg : string)
| LogInfo (msg : string)
| ApiRequest (model prompt : string)
| Invoke (c : Call).

Abbreviation World := (list Event).

Inductive Outcome (A : Type) : Type :=
| Ret (a : A)
| Raise (e : Exn).
Arguments Ret {A} a.
Arguments Raise {A} e.

Definition M (A : Type) : Type := World -> Outcome A * World.

#[global] Instance M_ret : MRet M := fun A a w => (Ret a, w).

#[global] Instance M_bind : MBind M := fun A B k m w =>
  match m w with
  | (Ret a, w') => k a w'
  | (Raise e, w') => (Raise e, w')
  end.

Definition raise {A} (e : Exn) : M A := fun w => (Raise e, w).

(** [try: body / except Exception as e: handler e] *)
Definition try_except {A} (body : M A) (handler : Exn -> M A) : M A := fun w =>
  match body w with
  | (Ret a, w') => (Ret a, w')
  | (Raise e, w') => handler e w'
  end.

Definition emit (ev : Event) : M unit := fun w => (Ret tt, w ++ [ev]).

Definition logger_error (msg : string) : M unit := emit (LogError msg).
Definition logger_info (msg : string) : M unit := emit (LogInfo msg).

(** A pure computation that may raise, run inside [M]. *)
Definition lift {A} (o : Outcome A) : M A := fun w => (o, w).

(** ** Dictionaries

    An email is a dictionary from field names to [str] values, as in the
    sample data of the source. *)

Abbreviation Email := (gmap string string).

(** [d[k]] *)
Definition getitem {V} (d : gmap string V) (k : string) : Outcome V :=
  match d !! k with
  | Some v => Ret v
  | None => Raise (KeyError (Some k))
  end.

(** [k in d] for a key that is a [str] or [None]; the dictionaries of the
    program have [str] keys only. *)
Definition contains_key {V} (d : gmap string V) (k : option string) : bool :=
  match k with
  | Some s => bool_decide (is_Some (d !! s))
  | None => false
  end.

(** [d[k]] for a key that is a [str] or [None]. *)
Definition getitem_opt {V} (d : gmap string V) (k : option string) : Outcome V :=
  match k with
  | Some s => match d !! s with Some v => Ret v | None => Raise (KeyError k) end
  | None => Raise (KeyError None)
  end.

(** [Outcome] alone is the monad of pure computations that may raise. *)
#[global] Instance Outcome_ret : MRet Outcome := fun A a => Ret a.

#[global] Instance Outcome_bind : MBind Outcome := fun A B k o =>
  match o with
  | Ret a => k a
  | Raise e => Raise e
  end.

#[global] Instance Outcome_fmap : FMap Outcome := fun A B f o =>
  match o with
  | Ret a => Ret (f a)
  | Raise e => Raise e
  end.

(** ** [str.format] with keyword arguments only

    The fragment of the format mini-language the templates of the source
    use: literal text, doubled braces, and replacement fields that end at
    the next closing brace.  The argument of a field is named by the text
    before the first [.], [[], [!] or [:]; the call passes keywords only,
    so an empty or numeric name finds no positional argument. *)

Module PyFormat.

Definition lbrace : ascii := "{"%char.
Definition rbrace : ascii := "}"%char.

Definition ends_name (c : ascii) : bool :=
  Ascii.eqb c "."%char || Ascii.eqb c "["%char
  || Ascii.eqb c "!"%char || Ascii.eqb c ":"%char.

Fixpoint arg_name (field : string) : string :=
  match field with
  | EmptyString => EmptyString
  | String c field' => if ends_name c then EmptyString else String c (arg_name field')
  end.

(** The value a replacement field stands for.  The arguments are [str]s,
    and a field that is just a name yields its argument.  A field that
    goes on after the name of a found argument is outside the fragment,
    except for an index that is no integer ([name['k']]), which a [str]
    refuses with [TypeError]; the model answers every such field that
    way.  No template of the source has a field whose argument is found. *)
Definition get_field (kwargs : gmap string string) (field : string) : Outcome string :=
  let name := arg_name field in
  if String.eqb name "" then
    Raise (IndexError "Replacement index 0 out of range for positional args tuple")
  else if PyStr.all_digits name then
    Raise (IndexError ("Replacement index " +:+ name +:+ " out of range for positional args tuple"))
  else
    match kwargs !! name with
    | None => Raise (KeyError (Some name))
    | Some v =>
        if String.eqb name field then Ret v
        else Raise (TypeError "string indices must be integers")
    end.

(** [field] is [None] in literal text and holds the text read so far
    inside a replacement field. *)
Fixpoint format_from (kwargs : gmap string string) (field : option string)
    (s : string) : Outcome string :=
  match field, s with
  | None, EmptyString => Ret EmptyString
  | None, String c s' =>
      if Ascii.eqb c lbrace then
        match s' with
        | EmptyString => Raise (ValueError "Single '{' encountered in format string")
        | String d s'' =>
            if Ascii.eqb d lbrace
            then String lbrace <$> format_from kwargs None s''
            else format_from kwargs (Some EmptyString) s'
        end
      else if Ascii.eqb c rbrace then
        match s' with
        | EmptyString => Raise (ValueError "Single '}' encountered in format string")
        | String d s'' =>
            if Ascii.eqb d rbrace
            then String rbrace <$> format_from kwargs None s''
            else Raise (ValueError "Single '}' encountered in format string")
        end
      else String c <$> format_from kwargs None s'
  | Some f, EmptyString => Raise (ValueError "expected '}' before end of string")
  | Some f, String c s' =>
      if Ascii.eqb c rbrace then
        v ← get_field kwargs f;
        String.append v <$> format_from kwargs None s'
      else if Ascii.eqb c lbrace then
        Raise (ValueError "unexpected '{' in field name")
      else format_from kwargs (Some (f +:+ String c EmptyString)) s'
  end.

(** [template.format(k1=v1, ...)], the keywords given as a dictionary *)
Definition format (template : string) (kwargs : gmap string string) : Outcome string :=
  format_from kwargs None template.

End PyFormat.

(** ** The completion endpoint

    What [client.chat.completions.create] may hand back: it raises, or
    returns [None], an object without a [choices] attribute, or an object
    whose [choices] is [None] or a list; a choice has a [message] that may
    be [None], and a message a [content] that may be [None]. *)

Record Message : Type := { content : option string }.
Record Choice : Type := { message : option Message }.

Inductive Response : Type :=
| RespNone
| RespNoChoices (cls : string)
| RespChoices (choices : option (list Choice)).

Inductive ApiOutcome : Type :=
| ApiRaises (e : Exn)
| ApiReturns (r : Response).

(** The endpoint answers a request (model name and prompt) and may look
    at everything that happened before it. *)
Definition Client : Type := World -> string -> string -> ApiOutcome.

(** A completion whose first choice carries the text [s]. *)
Definition completion (s : string) : Response :=
  RespChoices (Some [ {| message := Some {| content := Some s |} |} ]).

(** [client.chat.completions.create(model=model, messages=[{role: user,
    content: prompt}])] *)
Definition chat_completions_create (client : Client) (model prompt : string)
    : M Response := fun w =>
  let w' := w ++ [ApiRequest model prompt] in
  match client w model prompt with
  | ApiRaises e => (Raise e, w')
  | ApiReturns r => (Ret r, w')
  end.

Definition no_attribute (cls attr : string) : Exn :=
  AttributeError ("'" +:+ cls +:+ "' object has no attribute '" +:+ attr +:+ "'").

(** [response.choices] *)
Definition get_choices (response : Response) : Outcome (option (list Choice)) :=
  match response with
  | RespNone => Raise (no_attribute "NoneType" "choices")
  | RespNoChoices cls => Raise (no_attribute cls "choices")
  | RespChoices cs => Ret cs
  end.

(** [choices[0]] *)
Definition first_choice (choices : option (list Choice)) : Outcome Choice :=
  match choices with
  | None => Raise (TypeError "'NoneType' object is not subscriptable")
  | Some [] => Raise (IndexError "list index out of range")
  | Some (c :: _) => Ret c
  end.

(** [choice.message.content] *)
Definition message_content (choice : Choice) : Outcome (option string) :=
  match message choice with
  | None => Raise (no_attribute "NoneType" "content")
  | Some m => Ret (content m)
  end.

(** [content.strip()] *)
Definition content_strip (c : option string) : Outcome string :=
  match c with
  | None => Raise (no_attribute "NoneType" "strip")
  | Some s => Ret (PyStr.strip s)
  end.

(** [response.choices[0].message.content.strip()] *)
Definition stripped_content (response : Response) : Outcome string :=
  choices ← get_choices response;
  choice ← first_choice choices;
  c ← message_content choice;
  content_strip c.

(** [response is None] and [hasattr(response, attr)] for [attr = choices] *)
Definition is_none (response : Response) : bool :=
  match response with RespNone => true | _ => false end.

Definition hasattr_choices (response : Response) : bool :=
  match response with RespChoices _ => true | _ => false end.

(** ** class EmailProcessor

    [EmailAutomationSystem] is handed its processor and uses three methods
    of it; [Processor] is that interface, [new_EmailProcessor] the class
    of the source. *)

Record Processor : Type := {
  validate_email : Email -> bool;
  classify_email : Email -> M (option string);
  generate_response : Email -> option string -> M (option string)
}.

Module EmailProcessor.

Definition valid_categories : gset string :=
  {[ "complaint"; "inquiry"; "feedback"; "support_request"; "other" ]}.

Definition required_fields : list string :=
  ["id"; "from"; "subject"; "body"; "timestamp"].

(** The loop of [validate_email] over [fields]. *)
Fixpoint validate_fields (fields : list string) (email : Email) : bool :=
  match fields with
  | [] => true
  | field :: rest =>
      if negb (bool_decide (is_Some (email !! field))) then false
      else validate_fields rest email
  end.

Definition validate_email (email : Email) : bool :=
  validate_fields required_fields email.

Definition model_name : string := "qwen/qwen2.5-vl-32b-instruct:free".

Definition classification_prompt_head : string :=
  "
        You are an expert customer service representative. Your task is to classify a given email into one of the following categories:

        - complaint: Emails that express dissatisfaction with a product or service.
        - inquiry: Questions about products and services.
        - feedback: Positive or neutral messages about products or services.
        - support_request: Requests for assistance or support.
        - other: Emails that do not fit into any of the above categories.

        Here's the email content: ".

Definition classification_prompt_tail : string :=
  "

        Please respond only with the category name from the list above. DO NOT include any additional information.
        ".

Definition classification_prompt (body : string) : string :=
  classification_prompt_head +:+ body +:+ classification_prompt_tail.

Definition template_complaint : string :=
  "Dear user,

 We apologize for the terrible experience you had with the product your received.

 Your issue number is {email['email_id']} One of our team members is looking into it and you will have a proper resolution in the next 24 hours.

 Thank you for your patience.".

Definition template_inquiry : string :=
  "Dear user,

 Thank you for contacting us.

 You will be contacted by one of our team members with a response to your question soon.

 Best regards.".

Definition template_feedback : string :=
  "Dear user,

 We appreciate the time you took to share your feedback.

 It help us improve our products so that we can serve you best.

 Thank you.".

Definition template_support_request : string :=
  "Dear user,

 We received your request. Your support ticket number is support-{email['email_id']} and a member of the technical team will reach out to you with a proper response to your issue.

 Thank you for your patience.".

Definition template_other : string :=
  "Dear user,

 We are processing your message and if needed you will get a response shortly.

 Thank you.".

Definition response_templates : gmap string string :=
  list_to_map
    [ ("complaint", template_complaint);
      ("inquiry", template_inquiry);
      ("feedback", template_feedback);
      ("support_request", template_support_request);
      ("other", template_other) ].

Definition response_prompt_head : string :=
  "
        You are an experienced customer support agent. Your task is to take the following email 
        response template and enhance it based on the email content and its classification.

        Email content: ".

Definition response_prompt_classification : string :=
  "
        Classification: ".

Definition response_prompt_template : string :=
  "

        Response template: ".

Definition response_prompt_tail : string :=
  "

        Please keep the tone of the original template and use empathetic language in the response.
        Be professional and concise (max 3-4 sentences). DO NOT add any placeholders like [NAME] or [PRODUCT]. 
        Only use information from the body of the email.
        ".

Definition response_prompt (body : string) (classification : option string)
    (filled_template : string) : string :=
  response_prompt_head +:+ body
  +:+ response_prompt_classification +:+ PyStr.str_opt classification
  +:+ response_prompt_template +:+ filled_template
  +:+ response_prompt_tail.

Section WithClient.

Variable client : Client.

Definition classify_email (email : Email) : M (option string) :=
  body ← lift (getitem email "body");
  let prompt := classification_prompt body in
  try_except
    (response ← chat_completions_create client model_name prompt;
     result ← lift (PyStr.lower <$> stripped_content response);
     if is_none response || negb (hasattr_choices response) then
       logger_error "Invalid response from the LLM API";;
       mret None
     else if bool_decide (result ∈ valid_categories) then
       mret (Some result)
     else
       mret None)
    (fun e =>
       logger_error ("Failed to classify email: " +:+ exn_str e);;
       mret None).

Definition generate_response (email : Email) (classification : option string)
    : M (option string) :=
  base_template ← lift (getitem_opt response_templates classification);
  email_id ← lift (getitem email "id");
  filled_template ← lift (PyFormat.format base_template {[ "email_id" := email_id ]});
  body ← lift (getitem email "body");
  let prompt := response_prompt body classification filled_template in
  try_except
    (response ← chat_completions_create client model_name prompt;
     text ← lift (stripped_content response);
     mret (Some text))
    (fun e =>
       logger_error ("Failed to generate response: " +:+ exn_str e);;
       mret None).

End WithClient.

End EmailProcessor.

Definition new_EmailProcessor (client : Client) : Processor :=
  {| validate_email := EmailProcessor.validate_email;
     classify_email := EmailProcessor.classify_email client;
     generate_response := EmailProcessor.generate_response client |}.

(** ** The service functions

    The handlers reach the ticketing, notification and feedback services
    through module-level names; [Services] is what stands behind those
    names, [mock_services] the functions the source file binds them to. *)

Definition Services : Type := Call -> M unit.

Definition mock_services : Services := fun c =>
  match c with
  | send_complaint_response email_id _ =>
      logger_info ("Sending complaint response for email " +:+ email_id)
  | send_standard_response email_id _ =>
      logger_info ("Sending standard response for email " +:+ email_id)
  | create_urgent_ticket email_id _ _ =>
      logger_info ("Creating urgent ticket for email " +:+ email_id)
  | create_support_ticket email_id _ =>
      logger_info ("Creating support ticket for email " +:+ email_id)
  | log_customer_feedback email_id _ =>
      logger_info ("Logging feedback for email " +:+ email_id)
  end.

(** Calling a service function: the call is recorded, then its body runs. *)
Definition call (services : Services) (c : Call) : M unit :=
  emit (Invoke c);; services c.

(** ** class EmailAutomationSystem *)

Record ProcessingResult : Type := {
  email_id : string;
  success : bool;
  classification : option string;
  response_sent : option string
}.

Module EmailAutomationSystem.

Section WithServices.

Variable services : Services.

Definition _handle_complaint (email : Email) (response : option string) : M unit :=
  id ← lift (getitem email "id");
  body ← lift (getitem email "body");
  call services (create_urgent_ticket id "complaint" body);;
  id ← lift (getitem email "id");
  call services (send_complaint_response id response).

Definition _handle_inquiry (email : Email) (response : option string) : M unit :=
  id ← lift (getitem email "id");
  call services (send_standard_response id response).

Definition _handle_feedback (email : Email) (response : option string) : M unit :=
  id ← lift (getitem email "id");
  body ← lift (getitem email "body");
  call services (log_customer_feedback id body);;
  id ← lift (getitem email "id");
  call services (send_standard_response id response).

Definition _handle_support_request (email : Email) (response : option string) : M unit :=
  id ← lift (getitem email "id");
  body ← lift (getitem email "body");
  call services (create_support_ticket id body);;
  id ← lift (getitem email "id");
  call services (send_standard_response id response).

Definition _handle_other (email : Email) (response : option string) : M unit :=
  id ← lift (getitem email "id");
  call services (send_standard_response id response).

Definition response_handlers : gmap string (Email -> option string -> M unit) :=
  list_to_map
    [ ("complaint", _handle_complaint);
      ("inquiry", _handle_inquiry);
      ("feedback", _handle_feedback);
      ("support_request", _handle_support_request);
      ("other", _handle_other) ].

Variable processor : Processor.

(** The dictionary [process_email] returns on each of its failure paths. *)
Definition failure (email : Email) (classification : option string)
    : M ProcessingResult :=
  id ← lift (getitem email "id");
  mret {| email_id := id; success := false;
          classification := classification; response_sent := None |}.

Definition process_email (email : Email) : M ProcessingResult :=
  let is_valid := validate_email processor email in
  if negb is_valid then
    logger_error "Invalid email structure";;
    failure email None
  else
    try_except
      (classification ← classify_email processor email;
       if negb (contains_key response_handlers classification) then
         logger_error ("Invalid classification: " +:+ PyStr.str_opt classification);;
         failure email classification
       else
         response ← generate_response processor email classification;
         handler ← lift (getitem_opt response_handlers classification);
         handler email response;;
         id ← lift (getitem email "id");
         mret {| email_id := id; success := true;
                 classification := classification; response_sent := response |})
      (fun e =>
         logger_error ("Failed to process email: " +:+ exn_str e);;
         failure email None).

End WithServices.

End EmailAutomationSystem.

(** ** The sample data of the source *)

Definition sample_body_001 : string :=
  "I received my order #12345 yesterday but it arrived completely damaged. This is unacceptable and I demand a refund immediately. This is the worst customer service I've experienced.".

Definition sample_email_001 : Email :=
  list_to_map
    [ ("id", "001");
      ("from", "angry.customer@example.com");
      ("subject", "Broken product received");
      ("body", sample_body_001);
      ("timestamp", "2024-03-15T10:30:00Z") ].

Definition sample_body_002 : string :=
  "Hi, I'm interested in buying your premium package but I couldn't find information about whether it's compatible with Mac OS. Could you please clarify this? Thanks!".

Definition sample_email_002 : Email :=
  list_to_map
    [ ("id", "002");
      ("from", "curious.shopper@example.com");
      ("subject", "Question about product specifications");
      ("body", sample_body_002);
      ("timestamp", "2024-03-15T11:45:00Z") ].

Definition sample_body_003 : string :=
  "I just wanted to say thank you for the excellent support I received from Sarah on your team. She went above and beyond to help resolve my issue. Keep up the great work!".

Definition sample_email_003 : Email :=
  list_to_map
    [ ("id", "003");
      ("from", "happy.user@example.com");
      ("subject", "Amazing customer support");
      ("body", sample_body_003);
      ("timestamp", "2024-03-15T13:15:00Z") ].

Definition sample_body_004 : string :=
  "I've been trying to install the software for the past hour but keep getting error code 5123. I've already tried restarting my computer and clearing the cache. Please help!".

Definition sample_email_004 : Email :=
  list_to_map
    [ ("id", "004");
      ("from", "tech.user@example.com");
      ("subject", "Need help with installation");
      ("body", sample_body_004);
      ("timestamp", "2024-03-15T14:20:00Z") ].

Definition sample_body_005 : string :=
  "Our company is interested in exploring potential partnership opportunities with your organization. Would it be possible to schedule a call next week to discuss this further?".

Definition sample_email_005 : Email :=
  list_to_map
    [ ("id", "005");
      ("from", "business.client@example.com");
      ("subject", "Partnership opportunity");
      ("body", sample_body_005);
      ("timestamp", "2024-03-15T15:00:00Z") ].

Definition sample_emails : list Email :=
  [ sample_email_001; sample_email_002; sample_email_003;
    sample_email_004; sample_email_005 ].

(** ** run_demonstration

    The loop of [run_demonstration] over [emails], with [results] the
    list built so far.  The summary table the function makes of the
    results and prints is not part of the embedding. *)

Fixpoint demonstration_loop (services : Services) (processor : Processor)
    (emails : list Email) (results : list ProcessingResult)
    : M (list ProcessingResult) :=
  match emails with
  | [] => mret results
  | email :: rest =>
      id ← lift (getitem email "id");
      logger_info ("
Processing email " +:+ id +:+ "...");;
      result ← EmailAutomationSystem.process_email services processor email;
      demonstration_loop services processor rest (results ++ [result])
  end.

(** The rows [run_demonstration] collects from the sample emails. *)
Definition run_demonstration (services : Services) (client : Client)
    : M (list ProcessingResult) :=
  demonstration_loop services (new_EmailProcessor client) sample_emails [].

(** ** Clients and processors used to exercise the pipeline *)

(** A model that is a function of the request alone. *)
Definition pure_model (f : string -> string -> ApiOutcome) : Client :=
  fun _ model prompt => f model prompt.

(** A model that answers every request with the same text. *)
Definition always (s : string) : Client :=
  pure_model (fun _ _ => ApiReturns (completion s)).

(** An endpoint that returns [None] instead of a completion. *)
Definition returns_none : Client := fun _ _ _ => ApiReturns RespNone.

Definition is_api_request (ev : Event) : bool :=
  match ev with ApiRequest _ _ => true | _ => false end.

(** A model that answers its first request with [s] and is unreachable
    from then on. *)
Definition once (s : string) : Client := fun w _ _ =>
  if existsb is_api_request w
  then ApiRaises (OtherError "APIConnectionError" "Connection error.")
  else ApiReturns (completion s).

(** The processor of the source with [classify_email] replaced by a stub
    that returns [c]. *)
Definition stub_classifier (client : Client) (c : option string) : Processor :=
  {| validate_email := EmailProcessor.validate_email;
     classify_email := fun _ => mret c;
     generate_response := EmailProcessor.generate_response client |}.

(** ** Vocabulary of the statements *)

Definition invalid_response_line : Event :=
  LogError "Invalid response from the LLM API".

Definition classify_failure_line (e : Exn) : Event :=
  LogError ("Failed to classify email: " +:+ exn_str e).

(** [classify_email] under a model that is a function of the request: the
    answer and the events of a run are fixed by the body of the email. *)
Definition classify_pure (f : string -> string -> ApiOutcome) (body : string)
    : option string * list Event :=
  let prompt := EmailProcessor.classification_prompt body in
  let request := ApiRequest EmailProcessor.model_name prompt in
  match f EmailProcessor.model_name prompt with
  | ApiRaises e => (None, [request; classify_failure_line e])
  | ApiReturns response =>
      match stripped_content response with
      | Raise e => (None, [request; classify_failure_line e])
      | Ret s =>
          (if bool_decide (PyStr.lower s ∈ EmailProcessor.valid_categories)
           then Some (PyStr.lower s) else None, [request])
      end
  end.

Definition generate_failure_line (e : Exn) : Event :=
  LogError ("Failed to generate response: " +:+ exn_str e).

Definition failed (id : string) (c : option string) : ProcessingResult :=
  {| email_id := id; success := false; classification := c; response_sent := None |}.

Definition process_failure_line (e : Exn) : Event :=
  LogError ("Failed to process email: " +:+ exn_str e).

(** A service that is down makes the handler raise, after a valid
    classification and a response were computed. *)
Definition services_down : Services := fun _ =>
  raise (OtherError "ConnectionError" "ticket system unreachable").

(** A model that classifies the email and then replies with blanks only:
    the stripped reply is the empty string, and the run is a success. *)
Definition blank_reply : Client := fun _ _ prompt =>
  if String.eqb prompt (EmailProcessor.classification_prompt sample_body_002)
  then ApiReturns (completion "inquiry")
  else ApiReturns (completion "   ").

(** A computation is oblivious when its outcome and the events it adds
    are the same from every world. *)
Definition oblivious {A} (m : M A) : Prop :=
  exists (o : Outcome A) (new : list Event), forall w, m w = (o, w ++ new).

(** The line a mock service function logs. *)
Definition mock_line (c : Call) : Event :=
  match c with
  | send_complaint_response id _ => LogInfo ("Sending complaint response for email " +:+ id)
  | send_standard_response id _ => LogInfo ("Sending standard response for email " +:+ id)
  | create_urgent_ticket id _ _ => LogInfo ("Creating urgent ticket for email " +:+ id)
  | create_support_ticket id _ => LogInfo ("Creating support ticket for email " +:+ id)
  | log_customer_feedback id _ => LogInfo ("Logging feedback for email " +:+ id)
  end.

(** The service calls the handler of a category makes, in order. *)
Definition dispatch_calls (category id body : string) (response : option string)
    : list Call :=
  if String.eqb category "complaint" then
    [create_urgent_ticket id "complaint" body; send_complaint_response id response]
  else if String.eqb category "feedback" then
    [log_customer_feedback id body; send_standard_response id response]
  else if String.eqb category "support_request" then
    [create_support_ticket id body; send_standard_response id response]
  else
    [send_standard_response id response].

(** The events of those calls when the service functions are the mocks. *)
Fixpoint mock_trace (calls : list Call) : list Event :=
  match calls with
  | [] => []
  | c :: rest => Invoke c :: mock_line c :: mock_trace rest
  end.

(** The categories whose template has no placeholder. *)
Definition plain_categories : gset string := {[ "inquiry"; "feedback"; "other" ]}.

(** A text of whitespace only. *)
Fixpoint all_space (s : string) : bool :=
  match s with
  | EmptyString => true
  | String c s' => PyStr.is_space c && all_space s'
  end.

Definition has_id (email : Email) : Prop := is_Some (email !! "id").

Definition demonstration_line (id : string) : Event :=
  LogInfo ("
Processing email " +:+ id +:+ "...").

(** * Properties *)

(** ** Running monadic code *)

Lemma run_bind {A B} (m : M A) (k : A -> M B) (w : World) :
  (m ≫= k) w =
  match m w with
  | (Ret a, w') => k a w'
  | (Raise e, w') => (Raise e, w')
  end.
Proof. reflexivity. Qed.

Lemma run_bind_ret {A B} (m : M A) (k : A -> M B) (w w' : World) (a : A) :
  m w = (Ret a, w') -> (m ≫= k) w = k a w'.
Proof. intros H. rewrite run_bind, H. reflexivity. Qed.

Lemma run_bind_raise {A B} (m : M A) (k : A -> M B) (w w' : World) (e : Exn) :
  m w = (Raise e, w') -> (m ≫= k) w = (Raise e, w').
Proof. intros H. rewrite run_bind, H. reflexivity. Qed.

Lemma run_try_ret {A} (body : M A) (h : Exn -> M A) (w w' : World) (a : A) :
  body w = (Ret a, w') -> try_except body h w = (Ret a, w').
Proof. intros H. unfold try_except. rewrite H. reflexivity. Qed.

Lemma run_try_raise {A} (body : M A) (h : Exn -> M A) (w w' : World) (e : Exn) :
  body w = (Raise e, w') -> try_except body h w = h e w'.
Proof. intros H. unfold try_except. rewrite H. reflexivity. Qed.

Lemma run_emit_bind {B} (ev : Event) (k : unit -> M B) (w : World) :
  (emit ev ≫= k) w = k tt (w ++ [ev]).
Proof. reflexivity. Qed.

Lemma run_ret {A} (a : A) (w : World) : (mret a : M A) w = (Ret a, w).
Proof. reflexivity. Qed.

Lemma run_lift_getitem (email : Email) (k v : string) (w : World) :
  email !! k = Some v -> lift (getitem email k) w = (Ret v, w).
Proof. intros H. unfold lift, getitem. rewrite H. reflexivity. Qed.

(** ** Validation *)

Lemma validate_email_fields (email : Email) :
  EmailProcessor.validate_email email = true <->
  Forall (fun field => is_Some (email !! field)) EmailProcessor.required_fields.
Proof.
  unfold EmailProcessor.validate_email.
  induction EmailProcessor.required_fields as [|field rest IH]; simpl.
  - split; auto.
  - destruct (bool_decide_reflect (is_Some (email !! field))) as [Hf|Hf]; simpl.
    + rewrite IH. split.
      * intros H. constructor; assumption.
      * intros H. inversion H; assumption.
    + split; [discriminate|]. intros H. inversion H; contradiction.
Qed.

Lemma validate_email_has (email : Email) (field : string) :
  EmailProcessor.validate_email email = true ->
  field ∈ EmailProcessor.required_fields ->
  exists v, email !! field = Some v.
Proof.
  intros Hv Hin. apply validate_email_fields in Hv.
  rewrite Forall_forall in Hv. exact (Hv field Hin).
Qed.

Lemma validate_email_id (email : Email) :
  EmailProcessor.validate_email email = true -> exists v, email !! "id" = Some v.
Proof.
  intros Hv. apply (validate_email_has email "id" Hv).
  unfold EmailProcessor.required_fields. set_solver.
Qed.

Lemma validate_email_body (email : Email) :
  EmailProcessor.validate_email email = true -> exists v, email !! "body" = Some v.
Proof.
  intros Hv. apply (validate_email_has email "body" Hv).
  unfold EmailProcessor.required_fields. set_solver.
Qed.

Lemma validate_email_missing (email : Email) (field : string) :
  field ∈ EmailProcessor.required_fields ->
  email !! field = None ->
  EmailProcessor.validate_email email = false.
Proof.
  intros Hin Hnone.
  destruct (EmailProcessor.validate_email email) eqn:Hv; [|reflexivity].
  destruct (validate_email_has email field Hv Hin) as [v Hsome]. congruence.
Qed.

(** ** The classifier *)

(** A response whose text can be read has a [choices] attribute. *)
Lemma stripped_content_guard (response : Response) (s : string) :
  stripped_content response = Ret s ->
  is_none response || negb (hasattr_choices response) = false.
Proof. destruct response; simpl; [discriminate|discriminate|reflexivity]. Qed.

(** A response the guard of [classify_email] is written for has no text
    to read: the attribute access before the guard has raised. *)
Lemma guard_stripped_content (response : Response) :
  is_none response || negb (hasattr_choices response) = true ->
  exists e, stripped_content response = Raise e.
Proof.
  destruct response; simpl; intros H; [eauto | eauto | discriminate].
Qed.

(** What one run of [classify_email] does, by the answer of the endpoint. *)
Lemma classify_email_run (client : Client) (email : Email) (body : string) (w : World) :
  email !! "body" = Some body ->
  let request := ApiRequest EmailProcessor.model_name
                   (EmailProcessor.classification_prompt body) in
  EmailProcessor.classify_email client email w =
  match client w EmailProcessor.model_name (EmailProcessor.classification_prompt body) with
  | ApiRaises e => (Ret None, w ++ [request; classify_failure_line e])
  | ApiReturns response =>
      match stripped_content response with
      | Raise e => (Ret None, w ++ [request; classify_failure_line e])
      | Ret s =>
          (Ret (if bool_decide (PyStr.lower s ∈ EmailProcessor.valid_categories)
                then Some (PyStr.lower s) else None),
           w ++ [request])
      end
  end.
Proof.
  intros Hbody request. unfold EmailProcessor.classify_email.
  rewrite (run_bind_ret _ _ w w body) by (apply run_lift_getitem; exact Hbody).
  unfold try_except, chat_completions_create. rewrite run_bind.
  destruct (client w _ _) as [e|response]; simpl.
  - unfold logger_error. rewrite run_emit_bind, run_ret, <- app_assoc. reflexivity.
  - rewrite run_bind. unfold lift.
    destruct (stripped_content response) as [s|e] eqn:Hs; simpl.
    + rewrite (stripped_content_guard response s Hs).
      destruct (bool_decide _); reflexivity.
    + unfold logger_error. rewrite run_emit_bind, run_ret, <- app_assoc. reflexivity.
Qed.


(** The text of the first choice of a well-formed completion. *)
Lemma stripped_content_first (s : string) (rest : list Choice) :
  stripped_content
    (RespChoices (Some ({| message := Some {| content := Some s |} |} :: rest)))
  = Ret (PyStr.strip s).
Proof. reflexivity. Qed.

Lemma invalid_response_line_fresh (e : Exn) (request : Event) :
  is_api_request request = true ->
  invalid_response_line ∉ [request; classify_failure_line e].
Proof.
  intros Hreq Hin. simpl in Hin.
  apply elem_of_cons in Hin as [Heq|Hin].
  - subst request. discriminate.
  - apply elem_of_cons in Hin as [Heq|Hin].
    + unfold invalid_response_line, classify_failure_line in Heq. discriminate.
    + inversion Hin.
Qed.

Lemma classify_email_pure_model (f : string -> string -> ApiOutcome)
    (email : Email) (body : string) (w : World) :
  email !! "body" = Some body ->
  EmailProcessor.classify_email (pure_model f) email w =
  (Ret (classify_pure f body).1, w ++ (classify_pure f body).2).
Proof.
  intros Hbody. rewrite (classify_email_run _ _ body w Hbody).
  unfold classify_pure, pure_model.
  destruct (f _ _) as [e|response]; [reflexivity|].
  destruct (stripped_content response); reflexivity.
Qed.

(** C4: for an email with all required fields [classify_email] returns,
    and what it returns is [None] or one of the five categories.  When the
    completion call raises, the exception is logged and [None] returned;
    when the call yields a reply, the reply is stripped and lowercased and
    returned only if it is one of the five categories, [None] otherwise. *)
Theorem C4_classify_email_closed_vocabulary
    (client : Client) (email : Email) (w : World) :
  EmailProcessor.validate_email email = true ->
  exists body r w',
    email !! "body" = Some body /\
    EmailProcessor.classify_email client email w = (Ret r, w') /\
    (r = None \/ exists c, r = Some c /\ c ∈ EmailProcessor.valid_categories) /\
    match client w EmailProcessor.model_name
            (EmailProcessor.classification_prompt body) with
    | ApiRaises e =>
        r = None /\
        w' = w ++ [ApiRequest EmailProcessor.model_name
                     (EmailProcessor.classification_prompt body);
                   classify_failure_line e]
    | ApiReturns response =>
        forall s rest,
          response =
            RespChoices (Some ({| message := Some {| content := Some s |} |} :: rest)) ->
          r = if bool_decide (PyStr.lower (PyStr.strip s) ∈ EmailProcessor.valid_categories)
              then Some (PyStr.lower (PyStr.strip s)) else None
    end.
Proof.
  intros Hv. destruct (validate_email_body email Hv) as [body Hbody].
  exists body. rewrite (classify_email_run client email body w Hbody).
  destruct (client w _ _) as [e|response].
  - eexists _, _. repeat split; eauto.
  - destruct (stripped_content response) as [t|e] eqn:Ht.
    + eexists _, _. split; [exact Hbody|]. split; [reflexivity|]. split.
      * destruct (bool_decide_reflect (PyStr.lower t ∈ EmailProcessor.valid_categories));
          [right; eauto | left; reflexivity].
      * intros s rest ->. rewrite stripped_content_first in Ht.
        injection Ht as <-. reflexivity.
    + eexists _, _. split; [exact Hbody|]. split; [reflexivity|]. split; [left; reflexivity|].
      intros s rest ->. rewrite stripped_content_first in Ht. discriminate.
Qed.

Lemma C4_classify_email_closed_vocabulary_witness :
  EmailProcessor.validate_email sample_email_001 = true /\
  exists body r w',
    sample_email_001 !! "body" = Some body /\
    EmailProcessor.classify_email (always " Spam ") sample_email_001 [] = (Ret r, w') /\
    (r = None \/ exists c, r = Some c /\ c ∈ EmailProcessor.valid_categories) /\
    match always " Spam " [] EmailProcessor.model_name
            (EmailProcessor.classification_prompt body) with
    | ApiRaises e =>
        r = None /\
        w' = [] ++ [ApiRequest EmailProcessor.model_name
                      (EmailProcessor.classification_prompt body);
                    classify_failure_line e]
    | ApiReturns response =>
        forall s rest,
          response =
            RespChoices (Some ({| message := Some {| content := Some s |} |} :: rest)) ->
          r = if bool_decide (PyStr.lower (PyStr.strip s) ∈ EmailProcessor.valid_categories)
              then Some (PyStr.lower (PyStr.strip s)) else None
    end.
Proof.
  split; [reflexivity|].
  apply (C4_classify_email_closed_vocabulary (always " Spam ") sample_email_001 []).
  reflexivity.
Defined.

(** C10: the branch under the guard of [classify_email] is never taken.
    For every email with a body and every behaviour of the endpoint
    [classify_email] returns, and the line that branch logs is not among
    the events of the run; when the endpoint returns [None], an object
    without [choices], or choices with no text to read, the attribute
    access before the guard raises and the exception handler returns
    [None]. *)
Theorem C10_classify_email_guard_unreachable
    (client : Client) (email : Email) (body : string) (w : World) :
  email !! "body" = Some body ->
  exists r new,
    EmailProcessor.classify_email client email w = (Ret r, w ++ new) /\
    (invalid_response_line ∉ new) /\
    forall response,
      client w EmailProcessor.model_name (EmailProcessor.classification_prompt body)
        = ApiReturns response ->
      (is_none response || negb (hasattr_choices response) = true \/
       exists e, stripped_content response = Raise e) ->
      exists e,
        stripped_content response = Raise e /\
        r = None /\
        new = [ApiRequest EmailProcessor.model_name
                 (EmailProcessor.classification_prompt body);
               classify_failure_line e].
Proof.
  intros Hbody. rewrite (classify_email_run client email body w Hbody).
  destruct (client w _ _) as [e|response].
  - eexists _, _. split; [reflexivity|]. split.
    + apply invalid_response_line_fresh. reflexivity.
    + intros response Hresp. discriminate.
  - destruct (stripped_content response) as [t|e] eqn:Ht.
    + eexists _, _. split; [reflexivity|]. split.
      * intros Hin. apply elem_of_cons in Hin as [Heq|Hin]; [discriminate|inversion Hin].
      * intros response' [= <-] [Hguard|[e He]].
        -- rewrite (stripped_content_guard response t Ht) in Hguard. discriminate.
        -- congruence.
    + eexists _, _. split; [reflexivity|]. split.
      * apply invalid_response_line_fresh. reflexivity.
      * intros response' [= <-] _. exists e. rewrite Ht. auto.
Qed.

Lemma C10_classify_email_guard_unreachable_witness :
  sample_email_001 !! "body" = Some sample_body_001 /\
  exists r new,
    EmailProcessor.classify_email returns_none sample_email_001 [] = (Ret r, [] ++ new) /\
    (invalid_response_line ∉ new) /\
    forall response,
      returns_none [] EmailProcessor.model_name
        (EmailProcessor.classification_prompt sample_body_001)
        = ApiReturns response ->
      (is_none response || negb (hasattr_choices response) = true \/
       exists e, stripped_content response = Raise e) ->
      exists e,
        stripped_content response = Raise e /\
        r = None /\
        new = [ApiRequest EmailProcessor.model_name
                 (EmailProcessor.classification_prompt sample_body_001);
               classify_failure_line e].
Proof.
  split; [reflexivity|].
  apply (C10_classify_email_guard_unreachable
           returns_none sample_email_001 sample_body_001 []).
  reflexivity.
Defined.

(** C9: the prompt of [classify_email] embeds the body of the email and
    nothing else of it.  Under a model that is a function of the request,
    two valid emails with the same body send the same request and get the
    same classification, whatever their other fields are. *)
Theorem C9_classification_depends_on_body_only
    (f : string -> string -> ApiOutcome) (email1 email2 : Email) (w1 w2 : World) :
  EmailProcessor.validate_email email1 = true ->
  EmailProcessor.validate_email email2 = true ->
  email1 !! "body" = email2 !! "body" ->
  exists body r rest,
    email1 !! "body" = Some body /\
    EmailProcessor.classify_email (pure_model f) email1 w1 =
      (Ret r, w1 ++ ApiRequest EmailProcessor.model_name
                      (EmailProcessor.classification_prompt body) :: rest) /\
    EmailProcessor.classify_email (pure_model f) email2 w2 =
      (Ret r, w2 ++ ApiRequest EmailProcessor.model_name
                      (EmailProcessor.classification_prompt body) :: rest).
Proof.
  intros Hv1 _ Heq. destruct (validate_email_body email1 Hv1) as [body Hbody].
  assert (Hbody2 : email2 !! "body" = Some body) by congruence.
  rewrite (classify_email_pure_model f email1 body w1 Hbody).
  rewrite (classify_email_pure_model f email2 body w2 Hbody2).
  exists body, (classify_pure f body).1, (tail (classify_pure f body).2).
  split; [exact Hbody|].
  assert (Hshape : (classify_pure f body).2 =
            ApiRequest EmailProcessor.model_name
              (EmailProcessor.classification_prompt body)
            :: tail (classify_pure f body).2).
  { unfold classify_pure. destruct (f _ _) as [e|response]; [reflexivity|].
    destruct (stripped_content response); reflexivity. }
  rewrite <- Hshape. split; reflexivity.
Qed.

Lemma C9_classification_depends_on_body_only_witness :
  EmailProcessor.validate_email sample_email_001 = true /\
  EmailProcessor.validate_email (<["id" := "777"]> (<["subject" := "Re:"]> sample_email_001)) = true /\
  sample_email_001 !! "body" = (<["id" := "777"]> (<["subject" := "Re:"]> sample_email_001)) !! "body" /\
  exists body r rest,
    sample_email_001 !! "body" = Some body /\
    EmailProcessor.classify_email (always "complaint") sample_email_001 [] =
      (Ret r, [] ++ ApiRequest EmailProcessor.model_name
                      (EmailProcessor.classification_prompt body) :: rest) /\
    EmailProcessor.classify_email (always "complaint")
        (<["id" := "777"]> (<["subject" := "Re:"]> sample_email_001))
        [LogInfo "earlier"] =
      (Ret r, [LogInfo "earlier"] ++ ApiRequest EmailProcessor.model_name
                      (EmailProcessor.classification_prompt body) :: rest).
Proof.
  split; [reflexivity|]. split; [reflexivity|]. split; [reflexivity|].
  apply (C9_classification_depends_on_body_only
           (fun _ _ => ApiReturns (completion "complaint"))
           sample_email_001
           (<["id" := "777"]> (<["subject" := "Re:"]> sample_email_001))
           [] [LogInfo "earlier"]); reflexivity.
Defined.

(** ** The responder *)

Lemma response_templates_dom :
  dom EmailProcessor.response_templates = EmailProcessor.valid_categories.
Proof. reflexivity. Qed.

Lemma response_templates_outside (s : string) :
  s ∉ EmailProcessor.valid_categories ->
  EmailProcessor.response_templates !! s = None.
Proof. rewrite <- response_templates_dom. apply not_elem_of_dom. Qed.

(** What one run of [generate_response] does once the template is found
    and filled. *)
Lemma generate_response_run (client : Client) (email : Email)
    (c : option string) (template id filled body : string) (w : World) :
  getitem_opt EmailProcessor.response_templates c = Ret template ->
  email !! "id" = Some id ->
  PyFormat.format template {[ "email_id" := id ]} = Ret filled ->
  email !! "body" = Some body ->
  let prompt := EmailProcessor.response_prompt body c filled in
  let request := ApiRequest EmailProcessor.model_name prompt in
  EmailProcessor.generate_response client email c w =
  match client w EmailProcessor.model_name prompt with
  | ApiRaises e => (Ret None, w ++ [request; generate_failure_line e])
  | ApiReturns response =>
      match stripped_content response with
      | Raise e => (Ret None, w ++ [request; generate_failure_line e])
      | Ret s => (Ret (Some s), w ++ [request])
      end
  end.
Proof.
  intros Ht Hid Hf Hbody prompt request. unfold EmailProcessor.generate_response.
  rewrite (run_bind_ret _ _ w w template) by (unfold lift; rewrite Ht; reflexivity).
  rewrite (run_bind_ret _ _ w w id) by (apply run_lift_getitem; exact Hid).
  rewrite (run_bind_ret _ _ w w filled) by (unfold lift; rewrite Hf; reflexivity).
  rewrite (run_bind_ret _ _ w w body) by (apply run_lift_getitem; exact Hbody).
  unfold try_except, chat_completions_create. rewrite run_bind.
  fold prompt. destruct (client w _ prompt) as [e|response]; simpl.
  - unfold logger_error. rewrite run_emit_bind, run_ret, <- app_assoc. reflexivity.
  - rewrite run_bind. unfold lift.
    destruct (stripped_content response) as [s|e]; simpl.
    + reflexivity.
    + unfold logger_error. rewrite run_emit_bind, run_ret, <- app_assoc. reflexivity.
Qed.

(** The placeholder of the complaint and support-request templates names
    an argument [email]; the call passes [email_id]. *)
Lemma format_template_complaint (id : string) :
  PyFormat.format EmailProcessor.template_complaint {[ "email_id" := id ]}
  = Raise (KeyError (Some "email")).
Proof. reflexivity. Qed.

Lemma format_template_support_request (id : string) :
  PyFormat.format EmailProcessor.template_support_request {[ "email_id" := id ]}
  = Raise (KeyError (Some "email")).
Proof. reflexivity. Qed.

Lemma format_template_inquiry (id : string) :
  PyFormat.format EmailProcessor.template_inquiry {[ "email_id" := id ]}
  = Ret EmailProcessor.template_inquiry.
Proof. reflexivity. Qed.

Lemma format_template_feedback (id : string) :
  PyFormat.format EmailProcessor.template_feedback {[ "email_id" := id ]}
  = Ret EmailProcessor.template_feedback.
Proof. reflexivity. Qed.

Lemma format_template_other (id : string) :
  PyFormat.format EmailProcessor.template_other {[ "email_id" := id ]}
  = Ret EmailProcessor.template_other.
Proof. reflexivity. Qed.

Lemma generate_response_format_raises (client : Client) (email : Email)
    (c : option string) (template id : string) (e : Exn) (w : World) :
  getitem_opt EmailProcessor.response_templates c = Ret template ->
  email !! "id" = Some id ->
  PyFormat.format template {[ "email_id" := id ]} = Raise e ->
  EmailProcessor.generate_response client email c w = (Raise e, w).
Proof.
  intros Ht Hid Hf. unfold EmailProcessor.generate_response.
  rewrite (run_bind_ret _ _ w w template) by (unfold lift; rewrite Ht; reflexivity).
  rewrite (run_bind_ret _ _ w w id) by (apply run_lift_getitem; exact Hid).
  apply run_bind_raise. unfold lift. rewrite Hf. reflexivity.
Qed.

(** C5: for a classification that is [None] or a string outside the five
    categories, [generate_response] raises [KeyError] with that
    classification as its key.  The lookup is outside the [try] of the
    function: nothing is logged, no request is sent, and the exception
    reaches the caller. *)
Theorem C5_generate_response_unknown_category_raises
    (client : Client) (email : Email) (c : option string) (w : World) :
  (forall s, c = Some s -> s ∉ EmailProcessor.valid_categories) ->
  EmailProcessor.generate_response client email c w = (Raise (KeyError c), w).
Proof.
  intros Hc. unfold EmailProcessor.generate_response.
  apply run_bind_raise. unfold lift, getitem_opt.
  destruct c as [s|]; [|reflexivity].
  rewrite (response_templates_outside s (Hc s eq_refl)). reflexivity.
Qed.

Lemma C5_generate_response_unknown_category_raises_witness :
  (forall s, Some "spam" = Some s -> s ∉ EmailProcessor.valid_categories) /\
  EmailProcessor.generate_response (always "fine") sample_email_001 (Some "spam") []
  = (Raise (KeyError (Some "spam")), []).
Proof.
  assert (H : forall s, Some "spam" = Some s -> s ∉ EmailProcessor.valid_categories).
  { intros s [= <-]. apply (proj1 (bool_decide_eq_false _)). reflexivity. }
  split; [exact H|].
  apply (C5_generate_response_unknown_category_raises
           (always "fine") sample_email_001 (Some "spam") [] H).
Defined.

(** ** The orchestrator *)

Lemma response_handlers_dom (services : Services) :
  dom (EmailAutomationSystem.response_handlers services)
  = EmailProcessor.valid_categories.
Proof. reflexivity. Qed.

Lemma contains_key_handlers (services : Services) (c : option string) :
  contains_key (EmailAutomationSystem.response_handlers services) c = true <->
  exists s, c = Some s /\ s ∈ EmailProcessor.valid_categories.
Proof.
  rewrite <- (response_handlers_dom services). destruct c as [s|]; simpl.
  - rewrite bool_decide_eq_true, <- elem_of_dom. split.
    + intros H. exists s. auto.
    + intros (s' & [= <-] & H). exact H.
  - split; [discriminate|]. intros (s & Hs & _). discriminate.
Qed.

Lemma getitem_opt_contains {V} (d : gmap string V) (k : option string) (v : V) :
  getitem_opt d k = Ret v -> contains_key d k = true.
Proof.
  unfold getitem_opt. destruct k as [s|]; [|discriminate]. simpl.
  intros H. apply bool_decide_eq_true.
  destruct (d !! s); [eauto|discriminate].
Qed.

Lemma contains_getitem_opt {V} (d : gmap string V) (k : option string) :
  contains_key d k = true -> exists v, getitem_opt d k = Ret v.
Proof.
  unfold getitem_opt. destruct k as [s|]; [|discriminate]. simpl.
  intros H. apply bool_decide_eq_true in H as [v Hv]. rewrite Hv. eauto.
Qed.

Lemma run_failure (services : Services) (email : Email) (id : string)
    (c : option string) (w : World) :
  email !! "id" = Some id ->
  EmailAutomationSystem.failure email c w = (Ret (failed id c), w).
Proof.
  intros Hid. unfold EmailAutomationSystem.failure.
  rewrite (run_bind_ret _ _ w w id) by (apply run_lift_getitem; exact Hid).
  reflexivity.
Qed.

(** The [except] clause of [process_email] on an email with an id. *)
Lemma run_process_handler (email : Email) (id : string) (e : Exn) (w : World) :
  email !! "id" = Some id ->
  (logger_error ("Failed to process email: " +:+ exn_str e);;
   EmailAutomationSystem.failure email None) w
  = (Ret (failed id None), w ++ [process_failure_line e]).
Proof.
  intros Hid. unfold logger_error. rewrite run_emit_bind.
  apply (run_failure mock_services). exact Hid.
Qed.

(** An invalid email with an id: the failure result, and one logger line. *)
Lemma process_email_invalid (services : Services) (processor : Processor)
    (email : Email) (id : string) (w : World) :
  validate_email processor email = false ->
  email !! "id" = Some id ->
  EmailAutomationSystem.process_email services processor email w
  = (Ret (failed id None), w ++ [LogError "Invalid email structure"]).
Proof.
  intros Hv Hid. unfold EmailAutomationSystem.process_email. rewrite Hv. simpl.
  unfold logger_error. rewrite run_emit_bind.
  apply (run_failure services). exact Hid.
Qed.

(** An email without an id is invalid, and the failure path reads
    [email['id']] outside any [try]. *)
Lemma process_email_missing_id (services : Services) (client : Client)
    (email : Email) (w : World) :
  email !! "id" = None ->
  EmailAutomationSystem.process_email services (new_EmailProcessor client) email w
  = (Raise (KeyError (Some "id")), w ++ [LogError "Invalid email structure"]).
Proof.
  intros Hid. unfold EmailAutomationSystem.process_email. simpl.
  rewrite (validate_email_missing email "id") by
    (try exact Hid; unfold EmailProcessor.required_fields; set_solver).
  simpl. unfold logger_error. rewrite run_emit_bind.
  unfold EmailAutomationSystem.failure. apply run_bind_raise.
  unfold lift, getitem. rewrite Hid. reflexivity.
Qed.

Lemma contains_key_handlers_outside (services : Services) (c : option string) :
  (forall s, c = Some s -> s ∉ EmailProcessor.valid_categories) ->
  contains_key (EmailAutomationSystem.response_handlers services) c = false.
Proof.
  intros Hout. destruct (contains_key _ c) eqn:Hk; [|reflexivity].
  apply contains_key_handlers in Hk as (s & -> & Hs).
  exfalso. exact (Hout s eq_refl Hs).
Qed.

Lemma process_email_unrecognized (services : Services) (processor : Processor)
    (email : Email) (id : string) (c : option string) (w w1 : World) :
  validate_email processor email = true ->
  email !! "id" = Some id ->
  classify_email processor email w = (Ret c, w1) ->
  contains_key (EmailAutomationSystem.response_handlers services) c = false ->
  EmailAutomationSystem.process_email services processor email w
  = (Ret (failed id c),
     w1 ++ [LogError ("Invalid classification: " +:+ PyStr.str_opt c)]).
Proof.
  intros Hv Hid Hc Hkey. unfold EmailAutomationSystem.process_email.
  rewrite Hv. simpl.
  apply run_try_ret. rewrite (run_bind_ret _ _ w w1 c Hc). rewrite Hkey. simpl.
  unfold logger_error. rewrite run_emit_bind.
  apply (run_failure services). exact Hid.
Qed.

(** C7: when the classifier of the processor hands back [None] or a
    string outside the five dispatch categories, [process_email] returns
    the failure result with that value in the classification field and
    [None] as response; the run adds one logger line to what the
    classifier did, so neither [generate_response] nor a handler ran. *)
Theorem C7_unrecognized_classification_passthrough
    (services : Services) (processor : Processor) (email : Email)
    (id : string) (c : option string) (w w1 : World) :
  validate_email processor email = true ->
  email !! "id" = Some id ->
  classify_email processor email w = (Ret c, w1) ->
  (forall s, c = Some s -> s ∉ EmailProcessor.valid_categories) ->
  EmailAutomationSystem.process_email services processor email w
  = (Ret {| email_id := id; success := false;
            classification := c; response_sent := None |},
     w1 ++ [LogError ("Invalid classification: " +:+ PyStr.str_opt c)]).
Proof.
  intros Hv Hid Hc Hout.
  apply (process_email_unrecognized services processor email id c w w1 Hv Hid Hc).
  apply contains_key_handlers_outside. exact Hout.
Qed.

Lemma C7_unrecognized_classification_passthrough_witness :
  validate_email (stub_classifier (always "fine") (Some "spam")) sample_email_001 = true /\
  sample_email_001 !! "id" = Some "001" /\
  classify_email (stub_classifier (always "fine") (Some "spam")) sample_email_001 []
    = (Ret (Some "spam"), []) /\
  (forall s, Some "spam" = Some s -> s ∉ EmailProcessor.valid_categories) /\
  EmailAutomationSystem.process_email mock_services
    (stub_classifier (always "fine") (Some "spam")) sample_email_001 []
  = (Ret {| email_id := "001"; success := false;
            classification := Some "spam"; response_sent := None |},
     [] ++ [LogError ("Invalid classification: " +:+ PyStr.str_opt (Some "spam"))]).
Proof.
  assert (H : forall s, Some "spam" = Some s -> s ∉ EmailProcessor.valid_categories).
  { intros s [= <-]. apply (proj1 (bool_decide_eq_false _)). reflexivity. }
  split; [reflexivity|]. split; [reflexivity|]. split; [reflexivity|].
  split; [exact H|].
  apply (C7_unrecognized_classification_passthrough mock_services
           (stub_classifier (always "fine") (Some "spam")) sample_email_001
           "001" (Some "spam") [] []); [reflexivity|reflexivity|reflexivity|exact H].
Defined.

Section Caught.

Variables (services : Services) (processor : Processor) (email : Email).
Variables (id : string) (e : Exn) (w w' : World).
Hypothesis Hvalid : validate_email processor email = true.
Hypothesis Hid : email !! "id" = Some id.

(** The body of the [try] raises [e]: the [except] clause runs. *)
Lemma process_email_body_raises (body : M ProcessingResult) :
  body w = (Raise e, w') ->
  try_except body
    (fun e => logger_error ("Failed to process email: " +:+ exn_str e);;
              EmailAutomationSystem.failure email None) w
  = (Ret (failed id None), w' ++ [process_failure_line e]).
Proof.
  intros Hbody. rewrite (run_try_raise _ _ w w' e Hbody).
  apply run_process_handler. exact Hid.
Qed.

Lemma process_email_classify_raises :
  classify_email processor email w = (Raise e, w') ->
  EmailAutomationSystem.process_email services processor email w = (Ret (failed id None), w' ++ [process_failure_line e]).
Proof.
  intros Hc. unfold EmailAutomationSystem.process_email. rewrite Hvalid. simpl.
  apply process_email_body_raises. apply run_bind_raise. exact Hc.
Qed.

Lemma process_email_generate_raises (c : option string) (w1 : World) :
  classify_email processor email w = (Ret c, w1) ->
  contains_key (EmailAutomationSystem.response_handlers services) c = true ->
  generate_response processor email c w1 = (Raise e, w') ->
  EmailAutomationSystem.process_email services processor email w = (Ret (failed id None), w' ++ [process_failure_line e]).
Proof.
  intros Hc Hkey Hg. unfold EmailAutomationSystem.process_email. rewrite Hvalid. simpl.
  apply process_email_body_raises.
  rewrite (run_bind_ret _ _ w w1 c Hc). rewrite Hkey. simpl.
  apply run_bind_raise. exact Hg.
Qed.

Lemma process_email_handler_raises (c : option string) (w1 w2 : World)
    (response : option string) (handler : Email -> option string -> M unit) :
  classify_email processor email w = (Ret c, w1) ->
  generate_response processor email c w1 = (Ret response, w2) ->
  getitem_opt (EmailAutomationSystem.response_handlers services) c = Ret handler ->
  handler email response w2 = (Raise e, w') ->
  EmailAutomationSystem.process_email services processor email w = (Ret (failed id None), w' ++ [process_failure_line e]).
Proof.
  intros Hc Hg Hh Hrun. unfold EmailAutomationSystem.process_email. rewrite Hvalid. simpl.
  apply process_email_body_raises.
  rewrite (run_bind_ret _ _ w w1 c Hc).
  rewrite (getitem_opt_contains _ c handler Hh). simpl.
  rewrite (run_bind_ret _ _ w1 w2 response Hg).
  rewrite (run_bind_ret _ _ w2 w2 handler) by (unfold lift; rewrite Hh; reflexivity).
  apply run_bind_raise. exact Hrun.
Qed.

Lemma process_email_succeeds (c : option string) (w1 w2 : World)
    (response : option string) (handler : Email -> option string -> M unit) :
  classify_email processor email w = (Ret c, w1) ->
  generate_response processor email c w1 = (Ret response, w2) ->
  getitem_opt (EmailAutomationSystem.response_handlers services) c = Ret handler ->
  handler email response w2 = (Ret tt, w') ->
  EmailAutomationSystem.process_email services processor email w
  = (Ret {| email_id := id; success := true;
            classification := c; response_sent := response |}, w').
Proof.
  intros Hc Hg Hh Hrun. unfold EmailAutomationSystem.process_email. rewrite Hvalid. simpl.
  apply run_try_ret.
  rewrite (run_bind_ret _ _ w w1 c Hc).
  rewrite (getitem_opt_contains _ c handler Hh). simpl.
  rewrite (run_bind_ret _ _ w1 w2 response Hg).
  rewrite (run_bind_ret _ _ w2 w2 handler) by (unfold lift; rewrite Hh; reflexivity).
  rewrite (run_bind_ret _ _ w2 w' tt Hrun).
  rewrite (run_bind_ret _ _ w' w' id) by (apply run_lift_getitem; exact Hid).
  reflexivity.
Qed.

End Caught.

(** C6: for a validated email, an exception raised by the classifier, by
    [generate_response] or by the handler is caught by [process_email],
    which logs it and returns the failure result with [None] as
    classification and as response; a classification computed before the
    exception is not in the result. *)
Theorem C6_exception_yields_uniform_failure
    (services : Services) (processor : Processor) (email : Email)
    (id : string) (e : Exn) (w w' : World) :
  validate_email processor email = true ->
  email !! "id" = Some id ->
  ( classify_email processor email w = (Raise e, w')
    \/ (exists c w1,
          classify_email processor email w = (Ret c, w1) /\
          contains_key (EmailAutomationSystem.response_handlers services) c = true /\
          generate_response processor email c w1 = (Raise e, w'))
    \/ (exists c w1 response w2 handler,
          classify_email processor email w = (Ret c, w1) /\
          generate_response processor email c w1 = (Ret response, w2) /\
          getitem_opt (EmailAutomationSystem.response_handlers services) c = Ret handler /\
          handler email response w2 = (Raise e, w')) ) ->
  EmailAutomationSystem.process_email services processor email w
  = (Ret {| email_id := id; success := false;
            classification := None; response_sent := None |},
     w' ++ [LogError ("Failed to process email: " +:+ exn_str e)]).
Proof.
  intros Hv Hid [Hc | [(c & w1 & Hc & Hkey & Hg) | (c & w1 & r & w2 & h & Hc & Hg & Hh & Hrun)]].
  - exact (process_email_classify_raises services processor email id e w w' Hv Hid Hc).
  - exact (process_email_generate_raises services processor email id e w w' Hv Hid
             c w1 Hc Hkey Hg).
  - exact (process_email_handler_raises services processor email id e w w' Hv Hid
             c w1 w2 r h Hc Hg Hh Hrun).
Qed.

Lemma C6_exception_yields_uniform_failure_witness :
  let processor := new_EmailProcessor (always "complaint") in
  let w' := [ApiRequest EmailProcessor.model_name
               (EmailProcessor.classification_prompt sample_body_001)] in
  let e := KeyError (Some "email") in
  validate_email processor sample_email_001 = true /\
  sample_email_001 !! "id" = Some "001" /\
  ( classify_email processor sample_email_001 [] = (Raise e, w')
    \/ (exists c w1,
          classify_email processor sample_email_001 [] = (Ret c, w1) /\
          contains_key (EmailAutomationSystem.response_handlers mock_services) c = true /\
          generate_response processor sample_email_001 c w1 = (Raise e, w'))
    \/ (exists c w1 response w2 handler,
          classify_email processor sample_email_001 [] = (Ret c, w1) /\
          generate_response processor sample_email_001 c w1 = (Ret response, w2) /\
          getitem_opt (EmailAutomationSystem.response_handlers mock_services) c = Ret handler /\
          handler sample_email_001 response w2 = (Raise e, w')) ) /\
  EmailAutomationSystem.process_email mock_services processor sample_email_001 []
  = (Ret {| email_id := "001"; success := false;
            classification := None; response_sent := None |},
     w' ++ [LogError ("Failed to process email: " +:+ exn_str e)]).
Proof.
  intros processor w' e.
  assert (Hstage :
    classify_email processor sample_email_001 [] = (Raise e, w')
    \/ (exists c w1,
          classify_email processor sample_email_001 [] = (Ret c, w1) /\
          contains_key (EmailAutomationSystem.response_handlers mock_services) c = true /\
          generate_response processor sample_email_001 c w1 = (Raise e, w'))
    \/ (exists c w1 response w2 handler,
          classify_email processor sample_email_001 [] = (Ret c, w1) /\
          generate_response processor sample_email_001 c w1 = (Ret response, w2) /\
          getitem_opt (EmailAutomationSystem.response_handlers mock_services) c = Ret handler /\
          handler sample_email_001 response w2 = (Raise e, w'))).
  { right. left. exists (Some "complaint"), w'.
    split; [reflexivity|]. split; reflexivity. }
  split; [reflexivity|]. split; [reflexivity|]. split; [exact Hstage|].
  apply (C6_exception_yields_uniform_failure mock_services processor
           sample_email_001 "001" e [] w'); [reflexivity|reflexivity|exact Hstage].
Defined.

Example dispatch_failure_discards_partial_result :
  EmailAutomationSystem.process_email services_down
    (new_EmailProcessor (always "inquiry")) sample_email_002 []
  = (Ret (failed "002" None),
     [ApiRequest EmailProcessor.model_name
        (EmailProcessor.classification_prompt sample_body_002);
      ApiRequest EmailProcessor.model_name
        (EmailProcessor.response_prompt sample_body_002
           (Some "inquiry") EmailProcessor.template_inquiry);
      Invoke (send_standard_response "002" (Some "inquiry"));
      LogError "Failed to process email: ticket system unreachable"]).
Proof. reflexivity. Qed.

(** C3 and the missing id: validation rejects an email without an id, and
    the failure path then reads [email['id']] outside any [try], so
    [process_email] raises [KeyError] instead of returning a result. *)
Theorem C3_missing_id_raises :
  EmailAutomationSystem.process_email mock_services
    (new_EmailProcessor (always "complaint")) (delete "id" sample_email_001) []
  = (Raise (KeyError (Some "id")), [LogError "Invalid email structure"]).
Proof. reflexivity. Qed.

(** With an id present and another required field missing, the result is
    the failure result and the run only writes one logger line. *)
Lemma process_email_missing_field (services : Services) (client : Client)
    (email : Email) (id field : string) (w : World) :
  email !! "id" = Some id ->
  field ∈ EmailProcessor.required_fields ->
  email !! field = None ->
  EmailAutomationSystem.process_email services (new_EmailProcessor client) email w
  = (Ret (failed id None), w ++ [LogError "Invalid email structure"]).
Proof.
  intros Hid Hin Hnone. apply process_email_invalid; [|exact Hid].
  simpl. apply (validate_email_missing email field Hin Hnone).
Qed.

(** C2 on the first sample email with a model that answers [complaint]:
    filling the complaint template raises [KeyError] for the name [email],
    [process_email] catches it and returns the failure result, and no
    service function is called. *)
Theorem C2_complaint_pipeline_fails :
  EmailAutomationSystem.process_email mock_services
    (new_EmailProcessor (always "complaint")) sample_email_001 []
  = (Ret {| email_id := "001"; success := false;
            classification := None; response_sent := None |},
     [ApiRequest EmailProcessor.model_name
        (EmailProcessor.classification_prompt sample_body_001);
      LogError "Failed to process email: 'email'"]).
Proof. reflexivity. Qed.

(** The same for every valid email, every endpoint and both templates
    that have a placeholder. *)
Lemma process_email_placeholder_templates_fail (services : Services)
    (client : Client) (email : Email) (c : string) (w w1 : World) :
  EmailProcessor.validate_email email = true ->
  EmailProcessor.classify_email client email w = (Ret (Some c), w1) ->
  c = "complaint" \/ c = "support_request" ->
  exists id,
    email !! "id" = Some id /\
    EmailAutomationSystem.process_email services (new_EmailProcessor client) email w
    = (Ret (failed id None), w1 ++ [process_failure_line (KeyError (Some "email"))]).
Proof.
  intros Hv Hc Hcat. destruct (validate_email_id email Hv) as [id Hid].
  exists id. split; [exact Hid|].
  apply (process_email_generate_raises services (new_EmailProcessor client)
           email id (KeyError (Some "email")) w w1 Hv Hid (Some c) w1 Hc).
  - destruct Hcat as [-> | ->]; reflexivity.
  - simpl. destruct Hcat as [-> | ->].
    + apply (generate_response_format_raises client email _
               EmailProcessor.template_complaint id); [reflexivity|exact Hid|].
      apply format_template_complaint.
    + apply (generate_response_format_raises client email _
               EmailProcessor.template_support_request id); [reflexivity|exact Hid|].
      apply format_template_support_request.
Qed.

(** ** Successful runs *)

Lemma classify_email_returns (client : Client) (email : Email) (body : string) (w : World) :
  email !! "body" = Some body ->
  exists r w1,
    EmailProcessor.classify_email client email w = (Ret r, w1) /\
    (r = None \/ exists c, r = Some c /\ c ∈ EmailProcessor.valid_categories).
Proof.
  intros Hbody. rewrite (classify_email_run client email body w Hbody).
  destruct (client w _ _) as [e|response]; [eauto 6|].
  destruct (stripped_content response) as [t|e]; [|eauto 6].
  destruct (bool_decide_reflect (PyStr.lower t ∈ EmailProcessor.valid_categories)); eauto 8.
Qed.

(** C1, the refinement call fails: the model classifies the second sample
    email as an inquiry and is unreachable afterwards.  [generate_response]
    logs the failure and returns [None], the handler sends [None], and
    [process_email] reports success with no response. *)
Lemma C1_success_with_null_response :
  EmailAutomationSystem.process_email mock_services
    (new_EmailProcessor (once "inquiry")) sample_email_002 []
  = (Ret {| email_id := "002"; success := true;
            classification := Some "inquiry"; response_sent := None |},
     [ApiRequest EmailProcessor.model_name
        (EmailProcessor.classification_prompt sample_body_002);
      ApiRequest EmailProcessor.model_name
        (EmailProcessor.response_prompt sample_body_002 (Some "inquiry")
           EmailProcessor.template_inquiry);
      LogError "Failed to generate response: Connection error.";
      Invoke (send_standard_response "002" None);
      LogInfo "Sending standard response for email 002"]).
Proof. reflexivity. Qed.

Example success_with_empty_response :
  (EmailAutomationSystem.process_email mock_services
     (new_EmailProcessor blank_reply) sample_email_002 []).1
  = Ret {| email_id := "002"; success := true;
           classification := Some "inquiry"; response_sent := Some "" |}.
Proof. reflexivity. Qed.

(** A run known to end in a failure result cannot be the successful run
    [Hrun] speaks of. *)
Ltac not_a_success Hfail Hrun :=
  let Heq := fresh "Heq" in
  pose proof (eq_trans (eq_sym Hfail) Hrun) as Heq;
  injection Heq as <- _; discriminate.

(** C1 as the code has it: a result with [success = true] carries a
    classification that the classifier returned and that is one of the
    five categories, and as response whatever [generate_response]
    returned for it. *)
Theorem C1_success_carries_category_and_generated_response
    (services : Services) (client : Client) (email : Email)
    (w w' : World) (r : ProcessingResult) :
  EmailAutomationSystem.process_email services (new_EmailProcessor client) email w
    = (Ret r, w') ->
  success r = true ->
  exists c w1 w2,
    EmailProcessor.classify_email client email w = (Ret (Some c), w1) /\
    c ∈ EmailProcessor.valid_categories /\
    classification r = Some c /\
    EmailProcessor.generate_response client email (Some c) w1
      = (Ret (response_sent r), w2).
Proof.
  intros Hrun Hsucc. set (processor := new_EmailProcessor client) in *.
  destruct (EmailProcessor.validate_email email) eqn:Hv.
  2:{ destruct (email !! "id") as [id|] eqn:Hid.
      - not_a_success (process_email_invalid services processor email id w Hv Hid) Hrun.
      - pose proof (process_email_missing_id services client email w Hid) as Hfail.
        fold processor in Hfail. congruence. }
  destruct (validate_email_id email Hv) as [id Hid].
  destruct (validate_email_body email Hv) as [body Hbody].
  destruct (classify_email_returns client email body w Hbody) as (rc & w1 & Hc & Hrange).
  destruct (contains_key (EmailAutomationSystem.response_handlers services) rc) eqn:Hkey.
  2:{ not_a_success
        (process_email_unrecognized services processor email id rc w w1 Hv Hid Hc Hkey) Hrun. }
  destruct Hrange as [-> | (c & -> & Hin)]; [discriminate|].
  destruct (EmailProcessor.generate_response client email (Some c) w1)
    as [[resp|e] w2] eqn:Hg.
  2:{ not_a_success
        (process_email_generate_raises services processor email id e w w2 Hv Hid
           (Some c) w1 Hc Hkey Hg) Hrun. }
  destruct (contains_getitem_opt _ _ Hkey) as [handler Hh].
  destruct (handler email resp w2) as [[[]|e] w3] eqn:Hhandler.
  2:{ not_a_success
        (process_email_handler_raises services processor email id e w w3 Hv Hid
           (Some c) w1 w2 resp handler Hc Hg Hh Hhandler) Hrun. }
  pose proof (process_email_succeeds services processor email id w w3 Hv Hid
                (Some c) w1 w2 resp handler Hc Hg Hh Hhandler) as Hok.
  pose proof (eq_trans (eq_sym Hok) Hrun) as Heq. injection Heq as <- _.
  exists c, w1, w2. simpl. auto.
Qed.

Lemma C1_success_carries_category_and_generated_response_witness :
  let result := {| email_id := "002"; success := true;
                   classification := Some "inquiry";
                   response_sent := Some "We will get back to you." |} in
  let requests :=
    [ApiRequest EmailProcessor.model_name
       (EmailProcessor.classification_prompt sample_body_002);
     ApiRequest EmailProcessor.model_name
       (EmailProcessor.response_prompt sample_body_002 (Some "inquiry")
          EmailProcessor.template_inquiry)] in
  let client := fun (_ : World) (_ prompt : string) =>
    if String.eqb prompt (EmailProcessor.classification_prompt sample_body_002)
    then ApiReturns (completion "Inquiry")
    else ApiReturns (completion " We will get back to you. ") in
  EmailAutomationSystem.process_email mock_services (new_EmailProcessor client)
    sample_email_002 []
  = (Ret result,
     requests ++ [Invoke (send_standard_response "002" (Some "We will get back to you."));
                  LogInfo "Sending standard response for email 002"]) /\
  success result = true /\
  exists c w1 w2,
    EmailProcessor.classify_email client sample_email_002 [] = (Ret (Some c), w1) /\
    c ∈ EmailProcessor.valid_categories /\
    classification result = Some c /\
    EmailProcessor.generate_response client sample_email_002 (Some c) w1
      = (Ret (response_sent result), w2).
Proof.
  intros result requests client.
  assert (Hrun :
    EmailAutomationSystem.process_email mock_services (new_EmailProcessor client)
      sample_email_002 []
    = (Ret result,
       requests ++ [Invoke (send_standard_response "002" (Some "We will get back to you."));
                    LogInfo "Sending standard response for email 002"]))
    by reflexivity.
  split; [exact Hrun|]. split; [reflexivity|].
  exact (C1_success_carries_category_and_generated_response mock_services client
           sample_email_002 [] _ result Hrun eq_refl).
Defined.

(** ** Runs that do not look at the world

    A computation is [oblivious] when its outcome and the events it adds
    are the same from every world.  The endpoint and the services are the
    only parts of the pipeline that can see the world, so with a model
    that is a function of the request and the mock services every part of
    the pipeline is oblivious. *)

Section Oblivious.

Lemma oblivious_lift {A} (o : Outcome A) : oblivious (lift o).
Proof. exists o, []. intros w. unfold lift. rewrite app_nil_r. reflexivity. Qed.

Lemma oblivious_ret {A} (a : A) : oblivious (mret a : M A).
Proof. exact (oblivious_lift (Ret a)). Qed.

Lemma oblivious_emit (ev : Event) : oblivious (emit ev).
Proof. exists (Ret tt), [ev]. reflexivity. Qed.

Lemma oblivious_bind {A B} (m : M A) (k : A -> M B) :
  oblivious m ->
  (forall a w w', m w = (Ret a, w') -> oblivious (k a)) ->
  oblivious (m ≫= k).
Proof.
  intros ([a|e] & new & Hm) Hk.
  - destruct (Hk a [] _ (Hm [])) as (o & new' & Hka).
    exists o, (new ++ new'). intros w.
    rewrite (run_bind_ret _ _ w _ a (Hm w)), Hka, app_assoc. reflexivity.
  - exists (Raise e), new. intros w. apply run_bind_raise. apply Hm.
Qed.

Lemma oblivious_try {A} (body : M A) (handler : Exn -> M A) :
  oblivious body ->
  (forall e, oblivious (handler e)) ->
  oblivious (try_except body handler).
Proof.
  intros ([a|e] & new & Hm) Hh.
  - exists (Ret a), new. intros w. apply run_try_ret. apply Hm.
  - destruct (Hh e) as (o & new' & He).
    exists o, (new ++ new'). intros w.
    rewrite (run_try_raise _ _ w _ e (Hm w)), He, app_assoc. reflexivity.
Qed.

Lemma oblivious_log_then {A} (msg : string) (m : M A) :
  oblivious m -> oblivious (logger_error msg;; m).
Proof. intros Hm. apply oblivious_bind; [apply oblivious_emit|auto]. Qed.

Variable f : string -> string -> ApiOutcome.

Lemma oblivious_create (model prompt : string) :
  oblivious (chat_completions_create (pure_model f) model prompt).
Proof.
  unfold chat_completions_create, pure_model.
  destruct (f model prompt) as [e|r]; eexists _, _; intros w; reflexivity.
Qed.

Lemma oblivious_classify_email (email : Email) :
  oblivious (EmailProcessor.classify_email (pure_model f) email).
Proof.
  unfold EmailProcessor.classify_email.
  apply oblivious_bind; [apply oblivious_lift|]. intros body _ _ _.
  apply oblivious_try.
  - apply oblivious_bind; [apply oblivious_create|]. intros response _ _ _.
    apply oblivious_bind; [apply oblivious_lift|]. intros result _ _ _.
    destruct (is_none response || negb (hasattr_choices response)).
    + apply oblivious_log_then, oblivious_ret.
    + destruct (bool_decide _); apply oblivious_ret.
  - intros e. apply oblivious_log_then, oblivious_ret.
Qed.

Lemma oblivious_generate_response (email : Email) (c : option string) :
  oblivious (EmailProcessor.generate_response (pure_model f) email c).
Proof.
  unfold EmailProcessor.generate_response.
  apply oblivious_bind; [apply oblivious_lift|]. intros template _ _ _.
  apply oblivious_bind; [apply oblivious_lift|]. intros id _ _ _.
  apply oblivious_bind; [apply oblivious_lift|]. intros filled _ _ _.
  apply oblivious_bind; [apply oblivious_lift|]. intros body _ _ _.
  apply oblivious_try.
  - apply oblivious_bind; [apply oblivious_create|]. intros response _ _ _.
    apply oblivious_bind; [apply oblivious_lift|]. intros text _ _ _.
    apply oblivious_ret.
  - intros e. apply oblivious_log_then, oblivious_ret.
Qed.

Lemma oblivious_call_mock (c : Call) : oblivious (call mock_services c).
Proof.
  unfold call. apply oblivious_bind; [apply oblivious_emit|]. intros _ _ _ _.
  destruct c; apply oblivious_emit.
Qed.

Lemma oblivious_handler (email : Email) (response : option string)
    (s : string) (handler : Email -> option string -> M unit) :
  EmailAutomationSystem.response_handlers mock_services !! s = Some handler ->
  oblivious (handler email response).
Proof.
  unfold EmailAutomationSystem.response_handlers. simpl. intros H.
  repeat (apply lookup_insert_Some in H as [[_ <-]|[_ H]];
          [repeat first [ apply oblivious_call_mock
                        | apply oblivious_bind; [|intros ? _ _ _]
                        | apply oblivious_lift ] |]).
  rewrite lookup_empty in H. discriminate.
Qed.

Lemma oblivious_failure (email : Email) (c : option string) :
  oblivious (EmailAutomationSystem.failure email c).
Proof.
  unfold EmailAutomationSystem.failure.
  apply oblivious_bind; [apply oblivious_lift|]. intros id _ _ _. apply oblivious_ret.
Qed.

Lemma oblivious_process_email (email : Email) :
  oblivious (EmailAutomationSystem.process_email mock_services
               (new_EmailProcessor (pure_model f)) email).
Proof.
  unfold EmailAutomationSystem.process_email. simpl.
  destruct (EmailProcessor.validate_email email); simpl.
  2:{ apply oblivious_log_then, oblivious_failure. }
  apply oblivious_try.
  2:{ intros e. apply oblivious_log_then, oblivious_failure. }
  apply oblivious_bind; [apply oblivious_classify_email|]. intros c _ _ _.
  destruct (contains_key _ c) eqn:Hkey; simpl.
  2:{ apply oblivious_log_then, oblivious_failure. }
  apply oblivious_bind; [apply oblivious_generate_response|]. intros response _ _ _.
  apply oblivious_bind; [apply oblivious_lift|]. intros handler w w' Hh.
  apply oblivious_bind.
  - unfold lift in Hh. injection Hh as Hh _.
    destruct c as [s|]; [|discriminate]. simpl in Hh.
    destruct (EmailAutomationSystem.response_handlers mock_services !! s) eqn:Hs;
      [|discriminate].
    injection Hh as ->. exact (oblivious_handler email response s handler Hs).
  - intros _ _ _ _.
    apply oblivious_bind; [apply oblivious_lift|]. intros id _ _ _. apply oblivious_ret.
Qed.

End Oblivious.

(** With an id in the email, [process_email] returns a result whatever
    the endpoint and the services do. *)
Lemma process_email_returns (services : Services) (client : Client)
    (email : Email) (id : string) (w : World) :
  email !! "id" = Some id ->
  exists r w',
    EmailAutomationSystem.process_email services (new_EmailProcessor client) email w
    = (Ret r, w').
Proof.
  intros Hid. set (processor := new_EmailProcessor client).
  destruct (EmailProcessor.validate_email email) eqn:Hv.
  2:{ eexists _, _. exact (process_email_invalid services processor email id w Hv Hid). }
  destruct (validate_email_body email Hv) as [body Hbody].
  destruct (classify_email_returns client email body w Hbody) as (rc & w1 & Hc & _).
  destruct (contains_key (EmailAutomationSystem.response_handlers services) rc) eqn:Hkey.
  2:{ eexists _, _.
      exact (process_email_unrecognized services processor email id rc w w1 Hv Hid Hc Hkey). }
  destruct (EmailProcessor.generate_response client email rc w1)
    as [[resp|e] w2] eqn:Hg.
  2:{ eexists _, _.
      exact (process_email_generate_raises services processor email id e w w2 Hv Hid
               rc w1 Hc Hkey Hg). }
  destruct (contains_getitem_opt _ _ Hkey) as [handler Hh].
  destruct (handler email resp w2) as [[[]|e] w3] eqn:Hhandler.
  - eexists _, _.
    exact (process_email_succeeds services processor email id w w3 Hv Hid
             rc w1 w2 resp handler Hc Hg Hh Hhandler).
  - eexists _, _.
    exact (process_email_handler_raises services processor email id e w w3 Hv Hid
             rc w1 w2 resp handler Hc Hg Hh Hhandler).
Qed.

(** C8: with a model that is a function of the request (and the service
    functions of the source), two calls of [process_email] on the same
    email, the second made in the world the first one left, return the
    same result dictionary. *)
Theorem C8_process_email_idempotent
    (f : string -> string -> ApiOutcome) (email : Email) (id : string) (w : World) :
  email !! "id" = Some id ->
  let run := EmailAutomationSystem.process_email mock_services
               (new_EmailProcessor (pure_model f)) email in
  exists r, (run w).1 = Ret r /\ (run (run w).2).1 = Ret r.
Proof.
  intros Hid run.
  destruct (process_email_returns mock_services (pure_model f) email id w Hid)
    as (r & w' & Hfirst).
  destruct (oblivious_process_email f email) as (o & new & Hrun).
  exists r. unfold run. rewrite Hfirst. split; [reflexivity|]. simpl.
  rewrite Hrun. rewrite Hrun in Hfirst. injection Hfirst as -> _. reflexivity.
Qed.

Lemma C8_process_email_idempotent_witness :
  sample_email_002 !! "id" = Some "002" /\
  let run := EmailAutomationSystem.process_email mock_services
               (new_EmailProcessor (pure_model (fun _ _ => ApiReturns (completion "inquiry"))))
               sample_email_002 in
  exists r, (run []).1 = Ret r /\ (run (run []).2).1 = Ret r.
Proof.
  split; [reflexivity|].
  apply (C8_process_email_idempotent (fun _ _ => ApiReturns (completion "inquiry"))
           sample_email_002 "002" []).
  reflexivity.
Defined.

(** * Further properties of the pipeline *)

(** ** Validation and the tables of categories *)

(** X1: [validate_email] accepts an email exactly when each of the five
    keys [id], [from], [subject], [body] and [timestamp] is present. *)
Theorem X1_validate_email_iff_keys_present (email : Email) :
  EmailProcessor.validate_email email = true <->
  forall field,
    field ∈ ["id"; "from"; "subject"; "body"; "timestamp"] ->
    is_Some (email !! field).
Proof.
  rewrite validate_email_fields, Forall_forall. reflexivity.
Qed.

Lemma validate_email_dom (email : Email) :
  EmailProcessor.validate_email email = true <->
  forall field, field ∈ EmailProcessor.required_fields -> field ∈ dom email.
Proof.
  rewrite validate_email_fields, Forall_forall.
  split; intros H field Hin; apply elem_of_dom, H, Hin.
Qed.

(** X2: the verdict of [validate_email] depends on the keys of the email
    only: two dictionaries with the same keys are both accepted or both
    rejected, whatever their values are (empty strings included). *)
Theorem X2_validate_email_looks_at_keys_only (email1 email2 : Email) :
  dom email1 = dom email2 ->
  EmailProcessor.validate_email email1 = EmailProcessor.validate_email email2.
Proof.
  intros Hdom.
  destruct (EmailProcessor.validate_email email1) eqn:H1;
    destruct (EmailProcessor.validate_email email2) eqn:H2; try reflexivity.
  - pose proof (proj1 (validate_email_dom email1) H1) as Hkeys.
    rewrite Hdom in Hkeys.
    rewrite (proj2 (validate_email_dom email2) Hkeys) in H2. discriminate.
  - pose proof (proj1 (validate_email_dom email2) H2) as Hkeys.
    rewrite <- Hdom in Hkeys.
    rewrite (proj2 (validate_email_dom email1) Hkeys) in H1. discriminate.
Qed.

Lemma X2_validate_email_looks_at_keys_only_witness :
  dom sample_email_001 = dom ((fun _ => "") <$> sample_email_001) /\
  EmailProcessor.validate_email sample_email_001
  = EmailProcessor.validate_email ((fun _ => "") <$> sample_email_001).
Proof.
  split; [reflexivity|].
  apply (X2_validate_email_looks_at_keys_only sample_email_001
           ((fun _ => "") <$> sample_email_001)).
  reflexivity.
Defined.

(** X3: the three tables of categories agree: the templates of
    [generate_response] and the handlers of [EmailAutomationSystem] have
    exactly the five valid categories as keys, so a category
    [classify_email] returns always has a template and a handler. *)
Theorem X3_category_tables_agree (services : Services) :
  dom EmailProcessor.response_templates = EmailProcessor.valid_categories /\
  dom (EmailAutomationSystem.response_handlers services)
  = EmailProcessor.valid_categories.
Proof. split; reflexivity. Qed.

(** ** The classifier, further *)


Lemma is_space_lower_char (c : ascii) :
  PyStr.is_space (PyStr.lower_char c) = PyStr.is_space c.
Proof. destruct c as [[] [] [] [] [] [] [] []]; reflexivity. Qed.

Lemma lower_append (a b : string) :
  PyStr.lower (a +:+ b) = PyStr.lower a +:+ PyStr.lower b.
Proof. induction a as [|c a IH]; simpl; [reflexivity|]. rewrite IH. reflexivity. Qed.

Lemma lstrip_lower (s : string) :
  PyStr.lstrip (PyStr.lower s) = PyStr.lower (PyStr.lstrip s).
Proof.
  induction s as [|c s IH]; simpl; [reflexivity|].
  rewrite is_space_lower_char. destruct (PyStr.is_space c); [exact IH|reflexivity].
Qed.

Lemma rstrip_lower (s : string) :
  PyStr.rstrip (PyStr.lower s) = PyStr.lower (PyStr.rstrip s).
Proof.
  induction s as [|c s IH]; simpl; [reflexivity|].
  rewrite IH, is_space_lower_char.
  destruct (PyStr.rstrip s); simpl; [|reflexivity].
  destruct (PyStr.is_space c); reflexivity.
Qed.

Lemma strip_lower (s : string) :
  PyStr.strip (PyStr.lower s) = PyStr.lower (PyStr.strip s).
Proof. unfold PyStr.strip. rewrite rstrip_lower, lstrip_lower. reflexivity. Qed.

Lemma all_space_lower (s : string) : all_space (PyStr.lower s) = all_space s.
Proof.
  induction s as [|c s IH]; simpl; [reflexivity|].
  rewrite is_space_lower_char, IH. reflexivity.
Qed.

Lemma lstrip_app_space (p s : string) :
  all_space p = true -> PyStr.lstrip (p +:+ s) = PyStr.lstrip s.
Proof.
  induction p as [|c p IH]; simpl; [reflexivity|].
  intros [Hc Hp]%andb_prop. rewrite Hc. exact (IH Hp).
Qed.

Lemma rstrip_all_space (q : string) :
  all_space q = true -> PyStr.rstrip q = "".
Proof.
  induction q as [|c q IH]; simpl; [reflexivity|].
  intros [Hc Hq]%andb_prop. rewrite (IH Hq), Hc. reflexivity.
Qed.

Lemma rstrip_app_space (s q : string) :
  all_space q = true -> PyStr.rstrip (s +:+ q) = PyStr.rstrip s.
Proof.
  intros Hq. induction s as [|c s IH]; simpl.
  - apply rstrip_all_space. exact Hq.
  - rewrite IH. reflexivity.
Qed.

Lemma lstrip_rstrip_app_space (p s : string) :
  all_space p = true ->
  PyStr.lstrip (PyStr.rstrip (p +:+ s)) = PyStr.lstrip (PyStr.rstrip s).
Proof.
  intros Hp. induction p as [|c p IH]; simpl; [reflexivity|].
  apply andb_prop in Hp as [Hc Hp]. specialize (IH Hp).
  destruct (PyStr.rstrip (p +:+ s)) eqn:Hr; simpl.
  - rewrite Hc. simpl. exact IH.
  - rewrite Hc. exact IH.
Qed.

Lemma strip_padded (p s q : string) :
  all_space p = true -> all_space q = true ->
  PyStr.strip (p +:+ s +:+ q) = PyStr.strip s.
Proof.
  intros Hp Hq. unfold PyStr.strip.
  rewrite (lstrip_rstrip_app_space p (s +:+ q) Hp), (rstrip_app_space s q Hq).
  reflexivity.
Qed.

Lemma strip_category (c : string) :
  c ∈ EmailProcessor.valid_categories -> PyStr.strip c = c.
Proof.
  unfold EmailProcessor.valid_categories. intros Hc.
  repeat (apply elem_of_union in Hc as [Hc|Hc]);
    apply elem_of_singleton in Hc; subst c; reflexivity.
Qed.

(** X5: the classifier accepts a category name in any letter case with
    whitespace around it.  When the reply is [p + s + q] with [p] and [q]
    whitespace only and [s.lower()] one of the five categories,
    [classify_email] returns that category. *)
Theorem X5_classify_email_accepts_padded_reply
    (client : Client) (email : Email) (body p s q : string) (w : World) :
  email !! "body" = Some body ->
  all_space p = true ->
  all_space q = true ->
  PyStr.lower s ∈ EmailProcessor.valid_categories ->
  client w EmailProcessor.model_name (EmailProcessor.classification_prompt body)
    = ApiReturns (completion (p +:+ s +:+ q)) ->
  EmailProcessor.classify_email client email w
  = (Ret (Some (PyStr.lower s)),
     w ++ [ApiRequest EmailProcessor.model_name
             (EmailProcessor.classification_prompt body)]).
Proof.
  intros Hbody Hp Hq Hcat Hreply.
  rewrite (classify_email_run client email body w Hbody), Hreply.
  unfold completion. rewrite stripped_content_first.
  rewrite <- strip_lower, !lower_append.
  rewrite strip_padded by (rewrite all_space_lower; assumption).
  rewrite (strip_category _ Hcat).
  rewrite bool_decide_eq_true_2 by exact Hcat. reflexivity.
Qed.

Lemma X5_classify_email_accepts_padded_reply_witness :
  let p := "  " in
  let s := "Support_Request" in
  let q := "
" in
  sample_email_004 !! "body" = Some sample_body_004 /\
  all_space p = true /\
  all_space q = true /\
  PyStr.lower s ∈ EmailProcessor.valid_categories /\
  always (p +:+ s +:+ q) [] EmailProcessor.model_name
    (EmailProcessor.classification_prompt sample_body_004)
    = ApiReturns (completion (p +:+ s +:+ q)) /\
  EmailProcessor.classify_email (always (p +:+ s +:+ q)) sample_email_004 []
  = (Ret (Some (PyStr.lower s)),
     [] ++ [ApiRequest EmailProcessor.model_name
              (EmailProcessor.classification_prompt sample_body_004)]).
Proof.
  intros p s q.
  assert (Hcat : PyStr.lower s ∈ EmailProcessor.valid_categories).
  { exact (proj1 (bool_decide_eq_true
                    (PyStr.lower s ∈ EmailProcessor.valid_categories)) eq_refl). }
  split; [reflexivity|]. split; [reflexivity|]. split; [reflexivity|].
  split; [exact Hcat|]. split; [reflexivity|].
  apply (X5_classify_email_accepts_padded_reply (always (p +:+ s +:+ q))
           sample_email_004 sample_body_004 p s q []);
    [reflexivity|reflexivity|reflexivity|exact Hcat|reflexivity].
Defined.

(** Membership of a given string in a given set, by evaluation. *)
Ltac decide_elem :=
  match goal with
  | |- ?x ∈ ?X => exact (proj1 (bool_decide_eq_true (x ∈ X)) eq_refl)
  | |- ?x ∉ ?X => exact (proj1 (bool_decide_eq_false (x ∈ X)) eq_refl)
  end.

(** ** The responder, further *)

Lemma plain_categories_cases (c : string) :
  c ∈ plain_categories -> c = "inquiry" \/ c = "feedback" \/ c = "other".
Proof.
  unfold plain_categories. intros Hc.
  repeat (apply elem_of_union in Hc as [Hc|Hc]);
    apply elem_of_singleton in Hc; auto.
Qed.

Lemma valid_categories_cases (c : string) :
  c ∈ EmailProcessor.valid_categories ->
  c = "complaint" \/ c = "inquiry" \/ c = "feedback"
  \/ c = "support_request" \/ c = "other".
Proof.
  unfold EmailProcessor.valid_categories. intros Hc.
  repeat (apply elem_of_union in Hc as [Hc|Hc]);
    apply elem_of_singleton in Hc; auto 6.
Qed.

Lemma plain_template (c : string) (id : string) :
  c ∈ plain_categories ->
  exists template,
    EmailProcessor.response_templates !! c = Some template /\
    PyFormat.format template {[ "email_id" := id ]} = Ret template.
Proof.
  intros Hc. destruct (plain_categories_cases c Hc) as [-> | [-> | ->]].
  - exists EmailProcessor.template_inquiry. split; reflexivity.
  - exists EmailProcessor.template_feedback. split; reflexivity.
  - exists EmailProcessor.template_other. split; reflexivity.
Qed.

(** X6: for the categories inquiry, feedback and other, on an email with
    an id and a body, [generate_response] never raises.  It sends one
    request, whose prompt holds the body, the category and the template
    of the category as it stands (these templates have no placeholder),
    and returns the stripped reply; when the call raises or the reply
    cannot be read it logs the failure and returns [None]. *)
Theorem X6_generate_response_plain_templates
    (client : Client) (email : Email) (id body c : string) (w : World) :
  email !! "id" = Some id ->
  email !! "body" = Some body ->
  c ∈ plain_categories ->
  exists template,
    EmailProcessor.response_templates !! c = Some template /\
    let prompt := EmailProcessor.response_prompt body (Some c) template in
    let request := ApiRequest EmailProcessor.model_name prompt in
    EmailProcessor.generate_response client email (Some c) w =
    match client w EmailProcessor.model_name prompt with
    | ApiRaises e => (Ret None, w ++ [request; generate_failure_line e])
    | ApiReturns response =>
        match stripped_content response with
        | Raise e => (Ret None, w ++ [request; generate_failure_line e])
        | Ret s => (Ret (Some s), w ++ [request])
        end
    end.
Proof.
  intros Hid Hbody Hc. destruct (plain_template c id Hc) as (template & Ht & Hf).
  exists template. split; [exact Ht|].
  apply (generate_response_run client email (Some c) template id template body w);
    try assumption.
  simpl. rewrite Ht. reflexivity.
Qed.

Lemma X6_generate_response_plain_templates_witness :
  sample_email_003 !! "id" = Some "003" /\
  sample_email_003 !! "body" = Some sample_body_003 /\
  "feedback" ∈ plain_categories /\
  exists template,
    EmailProcessor.response_templates !! "feedback" = Some template /\
    let prompt := EmailProcessor.response_prompt sample_body_003 (Some "feedback") template in
    let request := ApiRequest EmailProcessor.model_name prompt in
    EmailProcessor.generate_response (always " Thank you! ") sample_email_003
      (Some "feedback") [] =
    match always " Thank you! " [] EmailProcessor.model_name prompt with
    | ApiRaises e => (Ret None, [] ++ [request; generate_failure_line e])
    | ApiReturns response =>
        match stripped_content response with
        | Raise e => (Ret None, [] ++ [request; generate_failure_line e])
        | Ret s => (Ret (Some s), [] ++ [request])
        end
    end.
Proof.
  assert (Hc : "feedback" ∈ plain_categories).
  { exact (proj1 (bool_decide_eq_true ("feedback" ∈ plain_categories)) eq_refl). }
  split; [reflexivity|]. split; [reflexivity|]. split; [exact Hc|].
  apply (X6_generate_response_plain_templates (always " Thank you! ")
           sample_email_003 "003" sample_body_003 "feedback" []);
    [reflexivity|reflexivity|exact Hc].
Defined.

(** X7: for the categories complaint and support_request, on every email
    with an id, [generate_response] raises [KeyError] for the name [email]
    while filling the template, before any request is sent: the
    placeholder of these two templates names [email], the call of
    [format] passes [email_id]. *)
Theorem X7_generate_response_placeholder_templates_raise
    (client : Client) (email : Email) (id c : string) (w : World) :
  email !! "id" = Some id ->
  c = "complaint" \/ c = "support_request" ->
  EmailProcessor.generate_response client email (Some c) w
  = (Raise (KeyError (Some "email")), w).
Proof.
  intros Hid [-> | ->].
  - apply (generate_response_format_raises client email _
             EmailProcessor.template_complaint id); [reflexivity|exact Hid|].
    apply format_template_complaint.
  - apply (generate_response_format_raises client email _
             EmailProcessor.template_support_request id); [reflexivity|exact Hid|].
    apply format_template_support_request.
Qed.

Lemma X7_generate_response_placeholder_templates_raise_witness :
  sample_email_004 !! "id" = Some "004" /\
  ("support_request" = "complaint" \/ "support_request" = "support_request") /\
  EmailProcessor.generate_response (always "fine") sample_email_004
    (Some "support_request") []
  = (Raise (KeyError (Some "email")), []).
Proof.
  split; [reflexivity|]. split; [right; reflexivity|].
  apply (X7_generate_response_placeholder_templates_raise (always "fine")
           sample_email_004 "004" "support_request" []);
    [reflexivity|right; reflexivity].
Defined.

(** X8: with a valid category and an email without an id,
    [generate_response] raises [KeyError] for [id]; nothing is logged and
    no request is sent. *)
Theorem X8_generate_response_needs_id
    (client : Client) (email : Email) (c : string) (w : World) :
  c ∈ EmailProcessor.valid_categories ->
  email !! "id" = None ->
  EmailProcessor.generate_response client email (Some c) w
  = (Raise (KeyError (Some "id")), w).
Proof.
  intros Hc Hid. unfold EmailProcessor.generate_response.
  rewrite <- response_templates_dom in Hc. apply elem_of_dom in Hc as [template Ht].
  rewrite (run_bind_ret _ _ w w template)
    by (unfold lift; simpl; rewrite Ht; reflexivity).
  apply run_bind_raise. unfold lift, getitem. rewrite Hid. reflexivity.
Qed.

Lemma X8_generate_response_needs_id_witness :
  "inquiry" ∈ EmailProcessor.valid_categories /\
  delete "id" sample_email_002 !! "id" = None /\
  EmailProcessor.generate_response (always "fine") (delete "id" sample_email_002)
    (Some "inquiry") []
  = (Raise (KeyError (Some "id")), []).
Proof.
  assert (Hc : "inquiry" ∈ EmailProcessor.valid_categories).
  { exact (proj1 (bool_decide_eq_true
                    ("inquiry" ∈ EmailProcessor.valid_categories)) eq_refl). }
  split; [exact Hc|]. split; [reflexivity|].
  apply (X8_generate_response_needs_id (always "fine") (delete "id" sample_email_002)
           "inquiry" [] Hc).
  reflexivity.
Defined.

(** ** The handlers *)

Lemma response_handlers_lookup (services : Services) (c : string)
    (handler : Email -> option string -> M unit) :
  EmailAutomationSystem.response_handlers services !! c = Some handler ->
  (c = "complaint" /\ handler = EmailAutomationSystem._handle_complaint services)
  \/ (c = "inquiry" /\ handler = EmailAutomationSystem._handle_inquiry services)
  \/ (c = "feedback" /\ handler = EmailAutomationSystem._handle_feedback services)
  \/ (c = "support_request"
      /\ handler = EmailAutomationSystem._handle_support_request services)
  \/ (c = "other" /\ handler = EmailAutomationSystem._handle_other services).
Proof.
  unfold EmailAutomationSystem.response_handlers. simpl. intros H.
  repeat (apply lookup_insert_Some in H as [[<- <-]|[_ H]]; [auto 10|]).
  rewrite lookup_empty in H. discriminate.
Qed.

Lemma run_call (services : Services) (c : Call) (w : World) :
  call services c w = services c (w ++ [Invoke c]).
Proof. reflexivity. Qed.

Lemma run_call_mock (c : Call) (w : World) :
  call mock_services c w = (Ret tt, w ++ [Invoke c; mock_line c]).
Proof.
  rewrite run_call. destruct c; simpl; unfold logger_info, emit;
    rewrite <- app_assoc; reflexivity.
Qed.

(** One step of a handler: read a field that is there. *)
Ltac read_field H :=
  cbv beta; rewrite (run_bind_ret _ _ _ _ _ (run_lift_getitem _ _ _ _ H)); cbv beta.

Lemma handlers_mock_run
    (email : Email) (id body c : string) (response : option string) (w : World) :
  email !! "id" = Some id ->
  email !! "body" = Some body ->
  c ∈ EmailProcessor.valid_categories ->
  exists handler,
    EmailAutomationSystem.response_handlers mock_services !! c = Some handler /\
    handler email response w
    = (Ret tt, w ++ mock_trace (dispatch_calls c id body response)).
Proof.
  intros Hid Hbody Hc.
  destruct (valid_categories_cases c Hc) as [-> | [-> | [-> | [-> | ->]]]].
  - exists (EmailAutomationSystem._handle_complaint mock_services).
    split; [reflexivity|]. unfold EmailAutomationSystem._handle_complaint.
    read_field Hid. read_field Hbody.
    rewrite (run_bind_ret _ _ _ _ tt (run_call_mock _ _)).
    read_field Hid. rewrite run_call_mock, <- app_assoc. reflexivity.
  - exists (EmailAutomationSystem._handle_inquiry mock_services).
    split; [reflexivity|]. unfold EmailAutomationSystem._handle_inquiry.
    read_field Hid. rewrite run_call_mock. reflexivity.
  - exists (EmailAutomationSystem._handle_feedback mock_services).
    split; [reflexivity|]. unfold EmailAutomationSystem._handle_feedback.
    read_field Hid. read_field Hbody.
    rewrite (run_bind_ret _ _ _ _ tt (run_call_mock _ _)).
    read_field Hid. rewrite run_call_mock, <- app_assoc. reflexivity.
  - exists (EmailAutomationSystem._handle_support_request mock_services).
    split; [reflexivity|]. unfold EmailAutomationSystem._handle_support_request.
    read_field Hid. read_field Hbody.
    rewrite (run_bind_ret _ _ _ _ tt (run_call_mock _ _)).
    read_field Hid. rewrite run_call_mock, <- app_assoc. reflexivity.
  - exists (EmailAutomationSystem._handle_other mock_services).
    split; [reflexivity|]. unfold EmailAutomationSystem._handle_other.
    read_field Hid. rewrite run_call_mock. reflexivity.
Qed.

(** X9: with the service functions of the source, the handler of each
    category returns after calling, in this order: for complaint
    [create_urgent_ticket] (tagged complaint, with the body) and
    [send_complaint_response]; for feedback [log_customer_feedback] and
    [send_standard_response]; for support_request [create_support_ticket]
    and [send_standard_response]; for inquiry and other
    [send_standard_response] alone.  Every call carries the id of the
    email, and the response is passed on as it was received. *)
Theorem X9_handlers_call_services_in_order
    (email : Email) (id body c : string) (response : option string) (w : World) :
  email !! "id" = Some id ->
  email !! "body" = Some body ->
  c ∈ EmailProcessor.valid_categories ->
  exists handler,
    EmailAutomationSystem.response_handlers mock_services !! c = Some handler /\
    handler email response w
    = (Ret tt, w ++ mock_trace (dispatch_calls c id body response)).
Proof.
  exact (handlers_mock_run email id body c response w).
Qed.

Lemma X9_handlers_call_services_in_order_witness :
  sample_email_001 !! "id" = Some "001" /\
  sample_email_001 !! "body" = Some sample_body_001 /\
  "complaint" ∈ EmailProcessor.valid_categories /\
  exists handler,
    EmailAutomationSystem.response_handlers mock_services !! "complaint" = Some handler /\
    handler sample_email_001 (Some "We are sorry.") []
    = (Ret tt,
       [] ++ mock_trace (dispatch_calls "complaint" "001" sample_body_001
                           (Some "We are sorry."))).
Proof.
  assert (Hc : "complaint" ∈ EmailProcessor.valid_categories).
  { exact (proj1 (bool_decide_eq_true
                    ("complaint" ∈ EmailProcessor.valid_categories)) eq_refl). }
  split; [reflexivity|]. split; [reflexivity|]. split; [exact Hc|].
  apply (X9_handlers_call_services_in_order sample_email_001 "001" sample_body_001
           "complaint" (Some "We are sorry.") []); [reflexivity|reflexivity|exact Hc].
Defined.

(** X10: a handler stops at the first service call that raises.  Whatever
    the service functions are, when the first call of the handler of a
    category raises, the handler raises the same exception in the world
    that call left: the calls after it are not made. *)
Theorem X10_handler_stops_at_failing_call
    (services : Services) (email : Email) (id body c : string)
    (response : option string) (handler : Email -> option string -> M unit)
    (first : Call) (rest : list Call) (e : Exn) (w w' : World) :
  email !! "id" = Some id ->
  email !! "body" = Some body ->
  EmailAutomationSystem.response_handlers services !! c = Some handler ->
  dispatch_calls c id body response = first :: rest ->
  services first (w ++ [Invoke first]) = (Raise e, w') ->
  handler email response w = (Raise e, w').
Proof.
  intros Hid Hbody Hh Hcalls Hfail.
  destruct (response_handlers_lookup services c handler Hh)
    as [[-> ->] | [[-> ->] | [[-> ->] | [[-> ->] | [-> ->]]]]];
    injection Hcalls as <- _.
  - unfold EmailAutomationSystem._handle_complaint.
    read_field Hid. read_field Hbody. apply run_bind_raise. exact Hfail.
  - unfold EmailAutomationSystem._handle_inquiry.
    read_field Hid. exact Hfail.
  - unfold EmailAutomationSystem._handle_feedback.
    read_field Hid. read_field Hbody. apply run_bind_raise. exact Hfail.
  - unfold EmailAutomationSystem._handle_support_request.
    read_field Hid. read_field Hbody. apply run_bind_raise. exact Hfail.
  - unfold EmailAutomationSystem._handle_other.
    read_field Hid. exact Hfail.
Qed.

Lemma X10_handler_stops_at_failing_call_witness :
  let first := log_customer_feedback "003" sample_body_003 in
  let rest := [send_standard_response "003" (Some "Thanks.")] in
  let e := OtherError "ConnectionError" "ticket system unreachable" in
  sample_email_003 !! "id" = Some "003" /\
  sample_email_003 !! "body" = Some sample_body_003 /\
  EmailAutomationSystem.response_handlers services_down !! "feedback"
    = Some (EmailAutomationSystem._handle_feedback services_down) /\
  dispatch_calls "feedback" "003" sample_body_003 (Some "Thanks.") = first :: rest /\
  services_down first ([] ++ [Invoke first]) = (Raise e, [Invoke first]) /\
  EmailAutomationSystem._handle_feedback services_down sample_email_003 (Some "Thanks.") []
  = (Raise e, [Invoke first]).
Proof.
  intros first rest e.
  split; [reflexivity|]. split; [reflexivity|]. split; [reflexivity|].
  split; [reflexivity|]. split; [reflexivity|].
  apply (X10_handler_stops_at_failing_call services_down sample_email_003 "003"
           sample_body_003 "feedback" (Some "Thanks.")
           (EmailAutomationSystem._handle_feedback services_down)
           first rest e [] [Invoke first]); reflexivity.
Defined.

(** X11: every handler reads the id of the email first: on an email
    without an id it raises [KeyError] for [id] and calls no service. *)
Theorem X11_handlers_need_id
    (services : Services) (email : Email) (c : string)
    (response : option string) (handler : Email -> option string -> M unit)
    (w : World) :
  EmailAutomationSystem.response_handlers services !! c = Some handler ->
  email !! "id" = None ->
  handler email response w = (Raise (KeyError (Some "id")), w).
Proof.
  intros Hh Hid.
  assert (Hread : lift (getitem email "id") w = (Raise (KeyError (Some "id")), w)).
  { unfold lift, getitem. rewrite Hid. reflexivity. }
  destruct (response_handlers_lookup services c handler Hh)
    as [[-> ->] | [[-> ->] | [[-> ->] | [[-> ->] | [-> ->]]]]];
    apply run_bind_raise; exact Hread.
Qed.

Lemma X11_handlers_need_id_witness :
  EmailAutomationSystem.response_handlers mock_services !! "other"
    = Some (EmailAutomationSystem._handle_other mock_services) /\
  delete "id" sample_email_005 !! "id" = None /\
  EmailAutomationSystem._handle_other mock_services (delete "id" sample_email_005)
    (Some "Noted.") []
  = (Raise (KeyError (Some "id")), []).
Proof.
  split; [reflexivity|]. split; [reflexivity|].
  apply (X11_handlers_need_id mock_services (delete "id" sample_email_005) "other"
           (Some "Noted.") (EmailAutomationSystem._handle_other mock_services) []);
    reflexivity.
Defined.

(** ** The orchestrator, further *)

(** X12: an email that has an id and lacks another required field gets
    the failure result with its id, [None] as classification and as
    response; the run writes one logger line and nothing else, so no
    request is sent and no service is called. *)
Theorem X12_process_email_rejects_missing_field
    (services : Services) (client : Client) (email : Email)
    (id field : string) (w : World) :
  email !! "id" = Some id ->
  field ∈ ["from"; "subject"; "body"; "timestamp"] ->
  email !! field = None ->
  EmailAutomationSystem.process_email services (new_EmailProcessor client) email w
  = (Ret {| email_id := id; success := false;
            classification := None; response_sent := None |},
     w ++ [LogError "Invalid email structure"]).
Proof.
  intros Hid Hin Hnone.
  apply (process_email_invalid services (new_EmailProcessor client) email id w);
    [|exact Hid].
  simpl. apply (validate_email_missing email field); [|exact Hnone].
  unfold EmailProcessor.required_fields. apply elem_of_cons. right. exact Hin.
Qed.

Lemma X12_process_email_rejects_missing_field_witness :
  delete "subject" sample_email_001 !! "id" = Some "001" /\
  "subject" ∈ ["from"; "subject"; "body"; "timestamp"] /\
  delete "subject" sample_email_001 !! "subject" = None /\
  EmailAutomationSystem.process_email mock_services
    (new_EmailProcessor (always "complaint")) (delete "subject" sample_email_001) []
  = (Ret {| email_id := "001"; success := false;
            classification := None; response_sent := None |},
     [] ++ [LogError "Invalid email structure"]).
Proof.
  assert (Hin : "subject" ∈ ["from"; "subject"; "body"; "timestamp"]).
  { apply elem_of_cons. right. apply elem_of_cons. left. reflexivity. }
  split; [reflexivity|]. split; [exact Hin|]. split; [reflexivity|].
  apply (X12_process_email_rejects_missing_field mock_services (always "complaint")
           (delete "subject" sample_email_001) "001" "subject" []);
    [reflexivity|exact Hin|reflexivity].
Defined.

(** The results [process_email] can return for an email with an id. *)
Lemma process_email_shape (services : Services) (client : Client)
    (email : Email) (id : string) (w : World) :
  email !! "id" = Some id ->
  exists r w',
    EmailAutomationSystem.process_email services (new_EmailProcessor client) email w
    = (Ret r, w') /\
    (r = failed id None \/
     exists c response,
       c ∈ EmailProcessor.valid_categories /\
       r = {| email_id := id; success := true;
              classification := Some c; response_sent := response |}).
Proof.
  intros Hid. set (processor := new_EmailProcessor client).
  destruct (EmailProcessor.validate_email email) eqn:Hv.
  2:{ eexists _, _. split; [|left; reflexivity].
      exact (process_email_invalid services processor email id w Hv Hid). }
  destruct (validate_email_body email Hv) as [body Hbody].
  destruct (classify_email_returns client email body w Hbody) as (rc & w1 & Hc & Hrange).
  destruct Hrange as [-> | (c & -> & Hin)].
  { eexists _, _. split; [|left; reflexivity].
    exact (process_email_unrecognized services processor email id None w w1
             Hv Hid Hc eq_refl). }
  assert (Hkey : contains_key (EmailAutomationSystem.response_handlers services)
                   (Some c) = true).
  { apply contains_key_handlers. eauto. }
  destruct (EmailProcessor.generate_response client email (Some c) w1)
    as [[resp|e] w2] eqn:Hg.
  2:{ eexists _, _. split; [|left; reflexivity].
      exact (process_email_generate_raises services processor email id e w w2 Hv Hid
               (Some c) w1 Hc Hkey Hg). }
  destruct (contains_getitem_opt _ _ Hkey) as [handler Hh].
  destruct (handler email resp w2) as [[[]|e] w3] eqn:Hhandler.
  - eexists _, _. split; [|right; exists c, resp; split; [exact Hin|reflexivity]].
    exact (process_email_succeeds services processor email id w w3 Hv Hid
             (Some c) w1 w2 resp handler Hc Hg Hh Hhandler).
  - eexists _, _. split; [|left; reflexivity].
    exact (process_email_handler_raises services processor email id e w w3 Hv Hid
             (Some c) w1 w2 resp handler Hc Hg Hh Hhandler).
Qed.

(** X13: [process_email] raises exactly when the email has no id.  With
    an id it returns a result that carries that id, whatever the endpoint
    and the service functions do; without one it logs the invalid
    structure and raises [KeyError] for [id]. *)
Theorem X13_process_email_raises_only_without_id
    (services : Services) (client : Client) (email : Email) (w : World) :
  match email !! "id" with
  | Some id =>
      exists r w',
        EmailAutomationSystem.process_email services (new_EmailProcessor client) email w
        = (Ret r, w') /\
        email_id r = id
  | None =>
      EmailAutomationSystem.process_email services (new_EmailProcessor client) email w
      = (Raise (KeyError (Some "id")), w ++ [LogError "Invalid email structure"])
  end.
Proof.
  destruct (email !! "id") as [id|] eqn:Hid.
  - destruct (process_email_shape services client email id w Hid)
      as (r & w' & Hrun & [-> | (c & resp & _ & ->)]); eauto.
  - apply process_email_missing_id. exact Hid.
Qed.

(** X14: a result of [process_email] is of one of two shapes: the failure
    result (success false, classification and response [None]), or a
    success whose classification is one of the five categories.  With the
    processor of the source a failure never carries a classification. *)
Theorem X14_process_email_result_shapes
    (services : Services) (client : Client) (email : Email)
    (w w' : World) (r : ProcessingResult) :
  EmailAutomationSystem.process_email services (new_EmailProcessor client) email w
    = (Ret r, w') ->
  (success r = false /\ classification r = None /\ response_sent r = None)
  \/ (success r = true /\
      exists c, classification r = Some c /\ c ∈ EmailProcessor.valid_categories).
Proof.
  intros Hrun. destruct (email !! "id") as [id|] eqn:Hid.
  - destruct (process_email_shape services client email id w Hid)
      as (r' & w2 & Hrun' & Hshape).
    assert (r' = r) as -> by congruence.
    destruct Hshape as [-> | (c & resp & Hc & ->)]; [left; auto|].
    right. split; [reflexivity|]. exists c. auto.
  - rewrite (process_email_missing_id services client email w Hid) in Hrun.
    discriminate.
Qed.

Lemma X14_process_email_result_shapes_witness :
  let r := {| email_id := "005"; success := true;
              classification := Some "other"; response_sent := Some "Other" |} in
  (EmailAutomationSystem.process_email mock_services
     (new_EmailProcessor (always "Other")) sample_email_005 []).1 = Ret r /\
  ((success r = false /\ classification r = None /\ response_sent r = None)
   \/ (success r = true /\
       exists c, classification r = Some c /\ c ∈ EmailProcessor.valid_categories)).
Proof.
  intros r. split; [reflexivity|].
  apply (X14_process_email_result_shapes mock_services (always "Other")
           sample_email_005 []
           (EmailAutomationSystem.process_email mock_services
              (new_EmailProcessor (always "Other")) sample_email_005 []).2 r).
  reflexivity.
Defined.

(** X15: an email classified as complaint or support_request is never
    processed successfully.  For every valid email, whatever the endpoint
    and the service functions are, [generate_response] raises while
    filling the template, and [process_email] logs the [KeyError] and
    returns the failure result; no second request is sent and no service
    is called. *)
Theorem X15_process_email_fails_on_placeholder_categories
    (services : Services) (client : Client) (email : Email)
    (id c : string) (w w1 : World) :
  EmailProcessor.validate_email email = true ->
  email !! "id" = Some id ->
  EmailProcessor.classify_email client email w = (Ret (Some c), w1) ->
  c = "complaint" \/ c = "support_request" ->
  EmailAutomationSystem.process_email services (new_EmailProcessor client) email w
  = (Ret {| email_id := id; success := false;
            classification := None; response_sent := None |},
     w1 ++ [LogError "Failed to process email: 'email'"]).
Proof.
  intros Hv Hid Hc Hcat.
  apply (process_email_generate_raises services (new_EmailProcessor client)
           email id (KeyError (Some "email")) w w1 Hv Hid (Some c) w1 Hc).
  - destruct Hcat as [-> | ->]; reflexivity.
  - simpl. destruct Hcat as [-> | ->].
    + apply (generate_response_format_raises client email _
               EmailProcessor.template_complaint id); [reflexivity|exact Hid|].
      apply format_template_complaint.
    + apply (generate_response_format_raises client email _
               EmailProcessor.template_support_request id); [reflexivity|exact Hid|].
      apply format_template_support_request.
Qed.

Lemma X15_process_email_fails_on_placeholder_categories_witness :
  let w1 := [ApiRequest EmailProcessor.model_name
               (EmailProcessor.classification_prompt sample_body_004)] in
  EmailProcessor.validate_email sample_email_004 = true /\
  sample_email_004 !! "id" = Some "004" /\
  EmailProcessor.classify_email (always "support_request") sample_email_004 []
    = (Ret (Some "support_request"), w1) /\
  ("support_request" = "complaint" \/ "support_request" = "support_request") /\
  EmailAutomationSystem.process_email services_down
    (new_EmailProcessor (always "support_request")) sample_email_004 []
  = (Ret {| email_id := "004"; success := false;
            classification := None; response_sent := None |},
     w1 ++ [LogError "Failed to process email: 'email'"]).
Proof.
  intros w1.
  split; [reflexivity|]. split; [reflexivity|]. split; [reflexivity|].
  split; [right; reflexivity|].
  apply (X15_process_email_fails_on_placeholder_categories services_down
           (always "support_request") sample_email_004 "004" "support_request" [] w1);
    [reflexivity|reflexivity|reflexivity|right; reflexivity].
Defined.

Lemma getitem_opt_lookup {V} (d : gmap string V) (s : string) (v : V) :
  d !! s = Some v -> getitem_opt d (Some s) = Ret v.
Proof. intros H. unfold getitem_opt. rewrite H. reflexivity. Qed.

(** For the plain categories [generate_response] returns. *)
Lemma generate_response_plain_returns (client : Client) (email : Email)
    (id body c : string) (w : World) :
  email !! "id" = Some id ->
  email !! "body" = Some body ->
  c ∈ plain_categories ->
  exists response w',
    EmailProcessor.generate_response client email (Some c) w = (Ret response, w').
Proof.
  intros Hid Hbody Hc. destruct (plain_template c id Hc) as (template & Ht & Hf).
  rewrite (generate_response_run client email (Some c) template id template body w)
    by (try assumption; simpl; rewrite Ht; reflexivity).
  destruct (client w _ _) as [e|response]; [eauto|].
  destruct (stripped_content response); eauto.
Qed.

Lemma plain_categories_valid (c : string) :
  c ∈ plain_categories -> c ∈ EmailProcessor.valid_categories.
Proof.
  intros Hc. destruct (plain_categories_cases c Hc) as [-> | [-> | ->]];
    decide_elem.
Qed.

(** The whole run for a plain category and the mock services. *)
Lemma process_email_plain_run (client : Client) (email : Email)
    (id body c : string) (w w1 : World) :
  EmailProcessor.validate_email email = true ->
  email !! "id" = Some id ->
  email !! "body" = Some body ->
  EmailProcessor.classify_email client email w = (Ret (Some c), w1) ->
  c ∈ plain_categories ->
  exists response w2,
    EmailProcessor.generate_response client email (Some c) w1 = (Ret response, w2) /\
    EmailAutomationSystem.process_email mock_services (new_EmailProcessor client) email w
    = (Ret {| email_id := id; success := true;
              classification := Some c; response_sent := response |},
       w2 ++ mock_trace (dispatch_calls c id body response)).
Proof.
  intros Hv Hid Hbody Hc Hplain.
  destruct (generate_response_plain_returns client email id body c w1 Hid Hbody Hplain)
    as (response & w2 & Hg).
  exists response, w2. split; [exact Hg|].
  destruct (handlers_mock_run email id body c response w2 Hid Hbody
              (plain_categories_valid c Hplain)) as (handler & Hh & Hrun).
  apply (process_email_succeeds mock_services (new_EmailProcessor client) email id
           w _ Hv Hid (Some c) w1 w2 response handler Hc Hg); [|exact Hrun].
  exact (getitem_opt_lookup _ c handler Hh).
Qed.

(** X16: the successful run.  For a valid email that the classifier puts
    in inquiry, feedback or other, with the service functions of the
    source: [process_email] returns success with that category and the
    response [generate_response] returned ([None] included), and after
    the two requests the services of the category are called in order
    with that response. *)
Theorem X16_process_email_successful_run
    (client : Client) (email : Email) (id body c : string) (w w1 : World) :
  EmailProcessor.validate_email email = true ->
  email !! "id" = Some id ->
  email !! "body" = Some body ->
  EmailProcessor.classify_email client email w = (Ret (Some c), w1) ->
  c ∈ plain_categories ->
  exists response w2,
    EmailProcessor.generate_response client email (Some c) w1 = (Ret response, w2) /\
    EmailAutomationSystem.process_email mock_services (new_EmailProcessor client) email w
    = (Ret {| email_id := id; success := true;
              classification := Some c; response_sent := response |},
       w2 ++ mock_trace (dispatch_calls c id body response)).
Proof.
  exact (process_email_plain_run client email id body c w w1).
Qed.

Lemma X16_process_email_successful_run_witness :
  let w1 := [ApiRequest EmailProcessor.model_name
               (EmailProcessor.classification_prompt sample_body_003)] in
  EmailProcessor.validate_email sample_email_003 = true /\
  sample_email_003 !! "id" = Some "003" /\
  sample_email_003 !! "body" = Some sample_body_003 /\
  EmailProcessor.classify_email (always "Feedback") sample_email_003 []
    = (Ret (Some "feedback"), w1) /\
  "feedback" ∈ plain_categories /\
  exists response w2,
    EmailProcessor.generate_response (always "Feedback") sample_email_003
      (Some "feedback") w1 = (Ret response, w2) /\
    EmailAutomationSystem.process_email mock_services
      (new_EmailProcessor (always "Feedback")) sample_email_003 []
    = (Ret {| email_id := "003"; success := true;
              classification := Some "feedback"; response_sent := response |},
       w2 ++ mock_trace (dispatch_calls "feedback" "003" sample_body_003 response)).
Proof.
  intros w1.
  assert (Hc : "feedback" ∈ plain_categories).
  { exact (proj1 (bool_decide_eq_true ("feedback" ∈ plain_categories)) eq_refl). }
  split; [reflexivity|]. split; [reflexivity|]. split; [reflexivity|].
  split; [reflexivity|]. split; [exact Hc|].
  apply (X16_process_email_successful_run (always "Feedback") sample_email_003
           "003" sample_body_003 "feedback" [] w1);
    [reflexivity|reflexivity|reflexivity|reflexivity|exact Hc].
Defined.

(** X17: with the service functions of the source, a valid email is
    processed successfully exactly when [classify_email] returns inquiry,
    feedback or other. *)
Theorem X17_process_email_succeeds_iff_plain_category
    (client : Client) (email : Email) (w : World) :
  EmailProcessor.validate_email email = true ->
  exists r w',
    EmailAutomationSystem.process_email mock_services (new_EmailProcessor client) email w
    = (Ret r, w') /\
    (success r = true <->
     exists c w1,
       EmailProcessor.classify_email client email w = (Ret (Some c), w1) /\
       c ∈ plain_categories).
Proof.
  intros Hv.
  destruct (validate_email_id email Hv) as [id Hid].
  destruct (validate_email_body email Hv) as [body Hbody].
  destruct (classify_email_returns client email body w Hbody) as (rc & w1 & Hc & Hrange).
  destruct Hrange as [-> | (c & -> & Hin)].
  { eexists _, _. split.
    - exact (process_email_unrecognized mock_services (new_EmailProcessor client)
               email id None w w1 Hv Hid Hc eq_refl).
    - simpl. split; [discriminate|]. intros (c & w2 & Hc' & _). congruence. }
  destruct (valid_categories_cases c Hin) as [Hcat | [Hcat | [Hcat | [Hcat | Hcat]]]].
  2,3,5:
    assert (Hplain : c ∈ plain_categories)
      by (subst c; decide_elem);
    destruct (process_email_plain_run client email id body c w w1 Hv Hid Hbody Hc Hplain)
      as (response & w2 & _ & Hrun);
    eexists _, _; (split; [exact Hrun|]); simpl;
    (split; [intros _; eauto|reflexivity]).
  all:
    assert (Hnot : c ∉ plain_categories)
      by (subst c; decide_elem);
    eexists _, _; split;
    [ apply (process_email_generate_raises mock_services (new_EmailProcessor client)
               email id (KeyError (Some "email")) w w1 Hv Hid (Some c) w1 Hc);
      [ subst c; reflexivity
      | subst c; simpl;
        first [ apply (generate_response_format_raises client email _
                         EmailProcessor.template_complaint id);
                [reflexivity|exact Hid|apply format_template_complaint]
              | apply (generate_response_format_raises client email _
                         EmailProcessor.template_support_request id);
                [reflexivity|exact Hid|apply format_template_support_request] ] ]
    | simpl; split; [discriminate|];
      intros (c' & w2 & Hc' & Hplain); congruence ].
Qed.

Lemma X17_process_email_succeeds_iff_plain_category_witness :
  EmailProcessor.validate_email sample_email_002 = true /\
  exists r w',
    EmailAutomationSystem.process_email mock_services
      (new_EmailProcessor (once "inquiry")) sample_email_002 []
    = (Ret r, w') /\
    (success r = true <->
     exists c w1,
       EmailProcessor.classify_email (once "inquiry") sample_email_002 []
         = (Ret (Some c), w1) /\
       c ∈ plain_categories).
Proof.
  split; [reflexivity|].
  apply (X17_process_email_succeeds_iff_plain_category (once "inquiry")
           sample_email_002 []).
  reflexivity.
Defined.

(** ** The loop of run_demonstration *)

Lemma run_demonstration_step (services : Services) (processor : Processor)
    (email : Email) (rest : list Email) (acc : list ProcessingResult)
    (id : string) (r : ProcessingResult) (w w' : World) :
  email !! "id" = Some id ->
  EmailAutomationSystem.process_email services processor email
    (w ++ [demonstration_line id]) = (Ret r, w') ->
  demonstration_loop services processor (email :: rest) acc w
  = demonstration_loop services processor rest (acc ++ [r]) w'.
Proof.
  intros Hid Hrun. simpl.
  rewrite (run_bind_ret _ _ w w id) by (apply run_lift_getitem; exact Hid).
  unfold logger_info. rewrite run_emit_bind.
  rewrite (run_bind_ret _ _ _ w' r Hrun). reflexivity.
Qed.

Lemma demonstration_loop_returns (services : Services) (client : Client)
    (emails : list Email) (acc : list ProcessingResult) (w : World) :
  Forall has_id emails ->
  exists results w',
    demonstration_loop services (new_EmailProcessor client) emails acc w
    = (Ret (acc ++ results), w') /\
    Forall2 (fun email r => email !! "id" = Some (email_id r)) emails results.
Proof.
  intros Hids. revert acc w.
  induction Hids as [|email rest [id Hid] _ IH]; intros acc w.
  - exists [], w. rewrite app_nil_r. split; [reflexivity|constructor].
  - destruct (process_email_shape services client email id
                (w ++ [demonstration_line id]) Hid) as (r & w1 & Hrun & Hshape).
    destruct (IH (acc ++ [r]) w1) as (results & w' & Hloop & Hall).
    exists (r :: results), w'. split.
    + rewrite (run_demonstration_step services _ email rest acc id r w w1 Hid Hrun).
      rewrite Hloop, <- app_assoc. reflexivity.
    + constructor; [|exact Hall].
      destruct Hshape as [-> | (c & resp & _ & ->)]; exact Hid.
Qed.

(** X18: the loop of [run_demonstration] never aborts on emails that have
    an id.  Whatever the endpoint and the service functions do (failures
    included), it returns one result per email, in the order of the
    emails, each carrying the id of its email. *)
Theorem X18_demonstration_loop_one_result_per_email
    (services : Services) (client : Client) (emails : list Email) (w : World) :
  Forall has_id emails ->
  exists results w',
    demonstration_loop services (new_EmailProcessor client) emails [] w
    = (Ret results, w') /\
    Forall2 (fun email r => email !! "id" = Some (email_id r)) emails results.
Proof.
  intros Hids.
  exact (demonstration_loop_returns services client emails [] w Hids).
Qed.

Lemma sample_emails_have_ids : Forall has_id sample_emails.
Proof. repeat constructor; eexists; reflexivity. Qed.

Lemma X18_demonstration_loop_one_result_per_email_witness :
  Forall has_id sample_emails /\
  exists results w',
    demonstration_loop services_down (new_EmailProcessor (once "inquiry"))
      sample_emails [] [] = (Ret results, w') /\
    Forall2 (fun email r => email !! "id" = Some (email_id r)) sample_emails results.
Proof.
  split; [exact sample_emails_have_ids|].
  apply (X18_demonstration_loop_one_result_per_email services_down (once "inquiry")
           sample_emails []).
  exact sample_emails_have_ids.
Defined.

(** X19: an email without an id aborts the loop of [run_demonstration]:
    the line logged before [process_email] reads [email['id']], so the
    loop raises [KeyError] for [id] and the results of the emails before
    it are not returned. *)
Theorem X19_demonstration_loop_aborts_without_id
    (services : Services) (client : Client)
    (before after : list Email) (bad : Email) (w : World) :
  Forall has_id before ->
  bad !! "id" = None ->
  exists w',
    demonstration_loop services (new_EmailProcessor client)
      (before ++ bad :: after) [] w
    = (Raise (KeyError (Some "id")), w').
Proof.
  intros Hids Hbad. generalize (@nil ProcessingResult) as acc. revert w.
  induction Hids as [|email rest [id Hid] _ IH]; intros w acc.
  - exists w. simpl. apply run_bind_raise.
    unfold lift, getitem. rewrite Hbad. reflexivity.
  - destruct (process_email_shape services client email id
                (w ++ [demonstration_line id]) Hid) as (r & w1 & Hrun & _).
    destruct (IH w1 (acc ++ [r])) as (w' & Hloop).
    exists w'. simpl app.
    rewrite (run_demonstration_step services _ email _ acc id r w w1 Hid Hrun).
    exact Hloop.
Qed.

Lemma X19_demonstration_loop_aborts_without_id_witness :
  Forall has_id [sample_email_001] /\
  delete "id" sample_email_002 !! "id" = None /\
  exists w',
    demonstration_loop mock_services (new_EmailProcessor (always "other"))
      ([sample_email_001] ++ delete "id" sample_email_002 :: [sample_email_003]) [] []
    = (Raise (KeyError (Some "id")), w').
Proof.
  assert (Hids : Forall has_id [sample_email_001]).
  { repeat constructor. eexists. reflexivity. }
  split; [exact Hids|]. split; [reflexivity|].
  apply (X19_demonstration_loop_aborts_without_id mock_services (always "other")
           [sample_email_001] [sample_email_003] (delete "id" sample_email_002) []
           Hids).
  reflexivity.
Defined.

Lemma demonstration_loop_independent (f : string -> string -> ApiOutcome)
    (emails : list Email) (acc : list ProcessingResult) (w : World) :
  Forall has_id emails ->
  exists results w',
    demonstration_loop mock_services (new_EmailProcessor (pure_model f)) emails acc w
    = (Ret (acc ++ results), w') /\
    Forall2
      (fun email r =>
         (EmailAutomationSystem.process_email mock_services
            (new_EmailProcessor (pure_model f)) email []).1 = Ret r)
      emails results.
Proof.
  intros Hids. revert acc w.
  induction Hids as [|email rest [id Hid] _ IH]; intros acc w.
  - exists [], w. rewrite app_nil_r. split; [reflexivity|constructor].
  - destruct (process_email_returns mock_services (pure_model f) email id
                (w ++ [demonstration_line id]) Hid) as (r & w1 & Hrun).
    destruct (IH (acc ++ [r]) w1) as (results & w' & Hloop & Hall).
    exists (r :: results), w'. split.
    + rewrite (run_demonstration_step mock_services _ email rest acc id r w w1 Hid Hrun).
      rewrite Hloop, <- app_assoc. reflexivity.
    + constructor; [|exact Hall].
      destruct (oblivious_process_email f email) as (o & new & Hobl).
      rewrite Hobl in Hrun. rewrite Hobl. simpl. congruence.
Qed.

(** X20: no state passes from one email to the next.  With a model that
    is a function of the request and the service functions of the source,
    the result the loop of [run_demonstration] collects for an email is
    the result [process_email] returns for that email alone, in an empty
    world. *)
Theorem X20_demonstration_loop_emails_independent
    (f : string -> string -> ApiOutcome) (emails : list Email) (w : World) :
  Forall has_id emails ->
  exists results w',
    demonstration_loop mock_services (new_EmailProcessor (pure_model f)) emails [] w
    = (Ret results, w') /\
    Forall2
      (fun email r =>
         (EmailAutomationSystem.process_email mock_services
            (new_EmailProcessor (pure_model f)) email []).1 = Ret r)
      emails results.
Proof.
  intros Hids.
  exact (demonstration_loop_independent f emails [] w Hids).
Qed.

Lemma X20_demonstration_loop_emails_independent_witness :
  Forall has_id sample_emails /\
  exists results w',
    demonstration_loop mock_services
      (new_EmailProcessor (pure_model (fun _ _ => ApiReturns (completion "feedback"))))
      sample_emails [] [] = (Ret results, w') /\
    Forall2
      (fun email r =>
         (EmailAutomationSystem.process_email mock_services
            (new_EmailProcessor
               (pure_model (fun _ _ => ApiReturns (completion "feedback"))))
            email []).1 = Ret r)
      sample_emails results.
Proof.
  split; [exact sample_emails_have_ids|].
  apply (X20_demonstration_loop_emails_independent
           (fun _ _ => ApiReturns (completion "feedback")) sample_emails []).
  exact sample_emails_have_ids.
Defined.
